(** * TelegrativeAI: a shallow embedding of the bot's handlers

    The development follows the Python sources file by file:
    [helpers/openai_helper.py], [helpers/langchain_helper.py],
    [model_manager.py], [telegram_process.py] and [main.py].

    Handlers are written in a state-and-exception monad over a [World]
    that holds the module globals of [telegram_process.py], the dict
    [context.user_data], the local file system and a chronological
    trace of every outbound send and every call to a hosted service.
    The hosted services and third-party libraries (OpenAI, FAISS, the
    text splitter, the PDF loader, HTTP, the Telegram file API) are an
    [Env] record of oracles: the theorems quantify over all of them. *)

From Stdlib Require Import ZArith Ascii String List.
From stdpp Require Import base option gmap strings list fin_maps.

Local Open Scope string_scope.

(** ** Python string operations used by the sources

    A [str] is modelled by the bytes of its UTF-8 encoding. Slices and
    lengths count code points, as Python does: a code point is a byte that
    is no continuation byte, with the continuation bytes that follow it.
    [lower] folds the ASCII letters, the only ones that can produce the
    letters of the word looked for. *)
Module Py.

Definition startswith (s p : string) : bool := String.prefix p s.

Definition lower_char (c : ascii) : ascii :=
  let n := nat_of_ascii c in
  if (65 <=? n)%nat && (n <=? 90)%nat then ascii_of_nat (n + 32) else c.

Fixpoint lower (s : string) : string :=
  match s with
  | EmptyString => EmptyString
  | String c s' => String (lower_char c) (lower s')
  end.

(** [sub in s] *)
Fixpoint contains (sub s : string) : bool :=
  String.prefix sub s ||
  match s with
  | EmptyString => false
  | String _ s' => contains sub s'
  end.

(** A continuation byte of UTF-8: [10xxxxxx]. *)
Definition is_continuation (c : ascii) : bool :=
  let n := nat_of_ascii c in
  (128 <=? n)%nat && (n <=? 191)%nat.

(** [len(s)]: the number of code points. *)
Fixpoint len (s : string) : nat :=
  match s with
  | EmptyString => 0
  | String c s' => if is_continuation c then len s' else S (len s')
  end.

(** The first [n] code points of [s]. *)
Fixpoint take_points (n : nat) (s : string) : string :=
  match s with
  | EmptyString => EmptyString
  | String c s' =>
      if is_continuation c then String c (take_points n s')
      else match n with
           | 0 => EmptyString
           | S n' => String c (take_points n' s')
           end
  end.

(** [s] without its first [n] code points. *)
Fixpoint drop_points (n : nat) (s : string) : string :=
  match s with
  | EmptyString => EmptyString
  | String c s' =>
      if is_continuation c then drop_points n s'
      else match n with
           | 0 => s
           | S n' => drop_points n' s'
           end
  end.

(** Whether [s] is empty or begins with the first byte of a code point,
    as every encoded [str] does. *)
Definition starts_clean (s : string) : bool :=
  match s with
  | EmptyString => true
  | String c _ => negb (is_continuation c)
  end.

(** [s[:n]] *)
Definition slice_to (n : nat) (s : string) : string := take_points n s.

(** [s[-n:]] for [n > 0]: the last [n] characters, the whole string
    when it is shorter. *)
Definition slice_last (n : nat) (s : string) : string :=
  drop_points (len s - n) s.

Definition is_space (c : ascii) : bool :=
  let n := nat_of_ascii c in
  (n =? 32)%nat || ((9 <=? n)%nat && (n <=? 13)%nat).

Fixpoint lstrip (s : string) : string :=
  match s with
  | EmptyString => EmptyString
  | String c s' => if is_space c then lstrip s' else s
  end.

Definition LF : ascii := "010"%char.

(** [s.splitlines()] for text whose only line boundary is LF: a final
    line without a terminator is kept, an empty tail is not. *)
Fixpoint splitlines_aux (cur : string) (s : string) : list string :=
  match s with
  | EmptyString => if String.eqb cur EmptyString then [] else [cur]
  | String c s' =>
      if Ascii.eqb c LF then cur :: splitlines_aux EmptyString s'
      else splitlines_aux (cur +:+ String c EmptyString) s'
  end.

Definition splitlines (s : string) : list string := splitlines_aux EmptyString s.

(** [sep.join(l)] *)
Fixpoint join (sep : string) (l : list string) : string :=
  match l with
  | [] => EmptyString
  | [x] => x
  | x :: l' => x +:+ sep +:+ join sep l'
  end.

(** An f-string field: [None] prints as the word None. *)
Definition format_opt (o : option string) : string :=
  match o with
  | Some s => s
  | None => "None"
  end.

Definition nl : string := String LF EmptyString.
Definition dquote : string := String "034"%char EmptyString.

End Py.

(** ** Exceptions and results *)

Inductive Exn : Type :=
| NameError (name : string)
| KeyError (key : Z)
| FileNotFoundError (path : string)
| AttributeError (attr : string)
| ServiceError (what : string).

Inductive result (A : Type) : Type :=
| Ok (a : A)
| Raise (e : Exn).
Arguments Ok {A} a.
Arguments Raise {A} e.

(** ** Data model *)

(** A chat message of the OpenAI API: [{"role": ..., "content": ...}]. *)
Record ChatMessage := { role : string; content : string }.

Record ChatRequest := {
  chat_model : string;
  chat_temperature : option Z;
  chat_max_tokens : option Z;
  messages : list ChatMessage
}.

Record TranscriptionRequest := {
  transcription_model : string;
  transcription_file : list Byte.byte;
  transcription_language : string
}.

Record ImageRequest := {
  image_prompt : option string;
  image_model : string;
  image_size : string;
  image_quality : string;
  image_n : nat;
  image_response_format : string
}.

(** [langchain.schema.Document], by its [page_content]. *)
Record Document := { page_content : string }.

(** [OpenAIEmbeddings(api_key=...)]. *)
Record OpenAIEmbeddings := { embeddings_api_key : string }.

(** The objects of the Telegram update the handlers read. *)
Module Telegram.

Record User := { id : Z; full_name : string }.
Record Voice := { voice_file_id : string }.
Record Document := { file_id : string; mime_type : option string }.
Record File := { file_path : string }.

Record Message := {
  message_id : Z;
  from_user : option User;
  text : option string;
  caption : option string;
  voice : option Voice;
  document : option Document;
  (** [reply_to_message], by the [text] of the message replied to *)
  reply_to_message : option (option string)
}.

Record CallbackQuery := { data : option string }.

Record Update := {
  message : option Message;
  callback_query : option CallbackQuery
}.

End Telegram.

(** ** helpers/openai_helper.py: the helper object *)

Record OpenAIHelper := {
  openai_client : string;  (** the key the client was built with *)
  temperature : option Z;
  max_tokens : option Z;
  text_model_name : string;
  transcribe_model_name : string;
  image_model_name : string;
  system : ChatMessage
}.

(** [OpenAIHelper.__init__] with its default arguments. *)
Definition OpenAIHelper_init (api_key : string) : OpenAIHelper :=
  {| openai_client := api_key;
     temperature := None;
     max_tokens := None;
     text_model_name := "gpt-3.5-turbo-0125";
     transcribe_model_name := "whisper-1";
     image_model_name := "dall-e-3";
     system := {| role := "system";
                  content := "You are a helpful assistant. You know every language, but your primary preference is to respond in English." |} |}.

(** ** helpers/langchain_helper.py: the helper object *)

Record LangChainHelper := {
  lc_model : OpenAIHelper;
  embed_model : OpenAIEmbeddings
}.

Definition LangChainHelper_init (m : OpenAIHelper) (e : OpenAIEmbeddings) : LangChainHelper :=
  {| lc_model := m; embed_model := e |}.

(** ** model_manager.py: the manager object *)

Record OpenAIModelManager := {
  model : OpenAIHelper;
  lang_model : LangChainHelper
}.

(** ** The outside world *)

(** Hosted services and third-party libraries, as oracles. The first
    argument of an OpenAI call is the key of the client that makes it. *)
Record Env := {
  models_list : string -> result unit;
  chat_completions_create : string -> ChatRequest -> result string;
  audio_transcriptions_create : string -> TranscriptionRequest -> result string;
  images_generate : string -> ImageRequest -> result (string * string);
  (** [PyPDFLoader(filepath).load()] *)
  pdf_load : string -> result (list Document);
  (** [RecursiveCharacterTextSplitter(chunk_size, chunk_overlap,
      length_function=len).split_documents] *)
  split_documents : nat -> nat -> list Document -> list Document;
  (** [FAISS.from_documents(docs, embed).as_retriever()
      .get_relevant_documents(prompt)] *)
  get_relevant_documents : OpenAIEmbeddings -> list Document -> string -> result (list Document);
  (** [requests.get(url).text] *)
  requests_get : string -> result string;
  (** [context.bot.get_file(file_id)] *)
  bot_get_file : string -> result Telegram.File;
  download_as_bytearray : Telegram.File -> result (list Byte.byte);
  (** the name [tempfile.NamedTemporaryFile] picks for a suffix *)
  temporary_name : gmap string (list Byte.byte) -> string -> string
}.

(** Everything a handler does that is visible outside of it: sends to the
    chat and calls to the oracles, in the order they happen. In the
    handlers a send is recorded as delivered; key entry is also given over
    a transport that can refuse a send ([check_user_via]). *)
Inductive Event : Type :=
| reply_text (text : string)
| reply_text_markup (text : string) (keyboard : list (list (string * string)))
| reply_markdown (text : string)
| reply_animation (animation : string)
| reply_photo (photo caption : string)
| message_delete (message_id : Z)
| query_answer
| time_sleep (seconds : nat)
| call_models_list (api_key : string)
| call_chat (api_key : string) (req : ChatRequest)
| call_transcribe (api_key : string) (req : TranscriptionRequest)
| call_image (api_key : string) (req : ImageRequest)
| call_pdf_load (filepath : string)
| call_retrieve (embed : OpenAIEmbeddings) (docs : list Document) (prompt : string)
| call_requests_get (url : string)
| call_get_file (file_id : string)
| call_download (file : Telegram.File).

(** The globals of [telegram_process.py] ([user], [user_name], [manager]:
    unbound until first assigned), the dict [context.user_data] handed to
    the callbacks, the files on disk and the trace. *)
Record World := {
  user : option Z;
  user_name : option string;
  manager : option OpenAIModelManager;
  user_data : gmap Z OpenAIModelManager;
  fs : gmap string (list Byte.byte);
  trace : list Event
}.

Definition set_user (u : Z) (n : string) (w : World) : World :=
  {| user := Some u; user_name := Some n; manager := manager w;
     user_data := user_data w; fs := fs w; trace := trace w |}.

Definition set_manager (m : OpenAIModelManager) (w : World) : World :=
  {| user := user w; user_name := user_name w; manager := Some m;
     user_data := user_data w; fs := fs w; trace := trace w |}.

Definition set_user_data (d : gmap Z OpenAIModelManager) (w : World) : World :=
  {| user := user w; user_name := user_name w; manager := manager w;
     user_data := d; fs := fs w; trace := trace w |}.

Definition set_fs (f : gmap string (list Byte.byte)) (w : World) : World :=
  {| user := user w; user_name := user_name w; manager := manager w;
     user_data := user_data w; fs := f; trace := trace w |}.

Definition log (e : Event) (w : World) : World :=
  {| user := user w; user_name := user_name w; manager := manager w;
     user_data := user_data w; fs := fs w; trace := trace w ++ [e] |}.

(** ** The handler monad: state, and exceptions that keep the state *)

Definition M (A : Type) : Type := World -> result A * World.

Definition ret {A} (a : A) : M A := fun w => (Ok a, w).

Definition bind {A B} (c : M A) (k : A -> M B) : M B :=
  fun w => match c w with
           | (Ok a, w') => k a w'
           | (Raise e, w') => (Raise e, w')
           end.

Definition raise {A} (e : Exn) : M A := fun w => (Raise e, w).

Notation "x <- c ;; k" := (bind c (fun x => k))
  (at level 100, c at next level, right associativity).
Notation "c ;; k" := (bind c (fun _ => k))
  (at level 100, right associativity).

Definition get_world : M World := fun w => (Ok w, w).
Definition modify (f : World -> World) : M unit := fun w => (Ok tt, f w).
Definition emit (e : Event) : M unit := modify (log e).

(** The value of an oracle call: an exception of the service propagates. *)
Definition lift {A} (r : result A) : M A := fun w => (r, w).

(** Attribute access on an [Optional] object. *)
Definition attr {A} (name : string) (o : option A) : M A :=
  match o with
  | Some a => ret a
  | None => raise (AttributeError name)
  end.

(** Reading a module global. *)
Definition global {A} (name : string) (proj : World -> option A) : M A :=
  fun w => match proj w with
           | Some a => (Ok a, w)
           | None => (Raise (NameError name), w)
           end.

(** [context.user_data[user]] *)
Definition user_data_get : M OpenAIModelManager :=
  u <- global "user" user ;;
  w <- get_world ;;
  match user_data w !! u with
  | Some m => ret m
  | None => raise (KeyError u)
  end.

Section Handlers.

Variable env : Env.

(** ** helpers/openai_helper.py *)

(** The arguments of [chat.completions.create]: the system message and
    the prompt as the one user message. *)
Definition chat_request (self : OpenAIHelper) (prompt : string) : ChatRequest :=
  {| chat_model := text_model_name self;
     chat_temperature := temperature self;
     chat_max_tokens := max_tokens self;
     messages := [system self; {| role := "user"; content := prompt |}] |}.

Definition chat_message (self : OpenAIHelper) (prompt : string) : M string :=
  let req := chat_request self prompt in
  emit (call_chat (openai_client self) req) ;;
  lift (chat_completions_create env (openai_client self) req).

(** The arguments of [audio.transcriptions.create]. The [language]
    argument of the method is not used by its body: the request always
    says "en". *)
Definition transcription_request (self : OpenAIHelper) (audio : list Byte.byte)
    : TranscriptionRequest :=
  {| transcription_model := transcribe_model_name self;
     transcription_file := audio;
     transcription_language := "en" |}.

Definition transcribe_voice (self : OpenAIHelper) (audio : list Byte.byte) : M string :=
  let req := transcription_request self audio in
  emit (call_transcribe (openai_client self) req) ;;
  lift (audio_transcriptions_create env (openai_client self) req).

Definition create_image (self : OpenAIHelper) (prompt : option string) : M (string * string) :=
  let req := {| image_prompt := prompt;
                image_model := image_model_name self;
                image_size := "1024x1024";
                image_quality := "standard";
                image_n := 1;
                image_response_format := "url" |} in
  emit (call_image (openai_client self) req) ;;
  lift (images_generate env (openai_client self) req).

Definition check_api_key (self : OpenAIHelper) : M unit :=
  emit (call_models_list (openai_client self)) ;;
  lift (models_list env (openai_client self)).

(** ** helpers/langchain_helper.py *)

(** [for document in relevant_documents: context_data += document.page_content] *)
Definition context_data (relevant_documents : list Document) : string :=
  fold_left (fun acc document => acc +:+ page_content document) relevant_documents EmptyString.

Definition indent8 : string := "        ".

(** The f-string of both retrieval methods. Its literal opens with four
    quotes, so the text starts with a quote character; the continuation
    lines carry the eight spaces of the source indentation. *)
Definition final_prompt (prompt : string) (context : string) : string :=
  Py.dquote +:+ "Here is your question: " +:+ prompt +:+ Py.nl +:+
  indent8 +:+ "We have the following information to answer it: " +:+ context +:+ "." +:+ Py.nl +:+
  indent8 +:+ "Use only the information provided here to answer the question. Do not go beyond this."
  +:+ Py.dquote +:+ Py.nl +:+
  indent8.

(** The part both methods share, from the split documents on. *)
Definition retrieve_and_answer (self : LangChainHelper)
    (splitted_documents : list Document) (prompt : string) : M string :=
  emit (call_retrieve (embed_model self) splitted_documents prompt) ;;
  relevant_documents <- lift (get_relevant_documents env (embed_model self) splitted_documents prompt) ;;
  chat_message (lc_model self) (final_prompt prompt (context_data relevant_documents)).

Definition rag_with_documents (self : LangChainHelper) (filepath prompt : string) : M string :=
  emit (call_pdf_load filepath) ;;
  raw_documents <- lift (pdf_load env filepath) ;;
  let splitted_documents := split_documents env 1000 0 raw_documents in
  retrieve_and_answer self splitted_documents prompt.

(** The loop that fills [texts] has no effect on the result (every element
    is a [Document]) and is left out. *)
Definition rag_with_documents_from_text (self : LangChainHelper) (text_content prompt : string) : M string :=
  let raw_documents := [ {| page_content := text_content |} ] in
  let splitted_documents := split_documents env 1000 0 raw_documents in
  retrieve_and_answer self splitted_documents prompt.

(** ** model_manager.py *)

Definition _validate_api_key (self : OpenAIModelManager) : M unit :=
  check_api_key (model self).

(** The object after the two assignments of [__init__]. *)
Definition new_manager (api_key : string) : OpenAIModelManager :=
  let m := OpenAIHelper_init api_key in
  {| model := m;
     lang_model := LangChainHelper_init m {| embeddings_api_key := api_key |} |}.

(** [OpenAIModelManager(api_key)]: the object exists for the caller only
    when [__init__] returns. *)
Definition OpenAIModelManager_init (api_key : string) : M OpenAIModelManager :=
  let self := new_manager api_key in
  _validate_api_key self ;;
  ret self.

(** ** telegram_process.py *)

Definition start_message_literal : string :=
"
    Here are the skills I can offer you,

    -> text chat
    -> have voice conversations
    -> create images based on your requests.
    -> analyze and review documents you provide.

    To perform these tasks, you will need to provide your OpenAI API key.
    Note: Please do not share your personal information and use a test API key. If you want to delete API key, you can use /off code.
    ".

Definition start_message : string :=
  Py.join Py.nl (map Py.lstrip (Py.splitlines start_message_literal)).

Definition start_animation : string :=
  "https://i.giphy.com/media/v1.Y2lkPTc5MGI3NjExZnpibnB3OWd2OWtvdm13cWl1NGFhaHQ3eDJvZnN1MHJ1a3I4NmFldyZlcD12MV9pbnRlcm5hbF9naWZfYnlfaWQmY3Q9Zw/JFz7YZA0vhiGlAYCSn/giphy.gif".
Definition yes_animation : string :=
  "https://i.giphy.com/media/v1.Y2lkPTc5MGI3NjExcHE2dzFqeTJ1ZmlybDJzcmQ2dWdkaHk0NXp6ejI5M2lodTNveGh1biZlcD12MV9pbnRlcm5hbF9naWZfYnlfaWQmY3Q9Zw/06yiZTyUNXmdSFlutV/giphy.gif".
Definition no_animation : string :=
  "https://i.giphy.com/media/v1.Y2lkPTc5MGI3NjExNmc5dWQ2dTc4dTNvMnpyNGdjaHFxbXl2dHQwamlsaGJ0bGxtcHplOCZlcD12MV9pbnRlcm5hbF9naWZfYnlfaWQmY3Q9Zw/9kzGqfk7xgN0AZw3jo/giphy.gif".

(** [update.message], for a method call or attribute read named [what]. *)
Definition message_of (what : string) (update : Telegram.Update) : M Telegram.Message :=
  attr what (Telegram.message update).

Definition hello (update : Telegram.Update) : M unit :=
  message_of "reply_markdown" update ;;
  n <- global "user_name" user_name ;;
  emit (reply_markdown ("Hello " +:+ n +:+ " , What Can I Help With ?")).

Definition question (update : Telegram.Update) : M unit :=
  message_of "reply_text" update ;;
  emit (reply_text_markup "Would you like to continue?"
          [[("Yes", "yes")]; [("No", "no")]]).

(** The branch of [check_user] that has no key to try. *)
Definition check_user_prompt (update : Telegram.Update) : M unit :=
  message_of "reply_markdown" update ;;
  emit (reply_markdown start_message) ;;
  emit (time_sleep 1) ;;
  question update.

(** The f-string of the success echo: [data[:3]], thirteen stars, [data[-3:]]. *)
Definition key_echo (data : string) : string :=
  "Key : " +:+ Py.slice_to 3 data +:+ "*************" +:+ Py.slice_last 3 data +:+ " success".

Definition check_user (update : Telegram.Update) (data : option string) : M unit :=
  u <- global "user" user ;;
  w <- get_world ;;
  match user_data w !! u with
  | None =>
      match data with
      | Some d =>
          if String.eqb d EmptyString then check_user_prompt update
          else
            m <- OpenAIModelManager_init d ;;
            modify (set_manager m) ;;
            message_of "reply_text" update ;;
            emit (reply_text (key_echo d)) ;;
            hello update ;;
            u' <- global "user" user ;;
            m' <- global "manager" manager ;;
            modify (fun w => set_user_data (<[u' := m']> (user_data w)) w)
      | None => check_user_prompt update
      end
  | Some _ => hello update
  end.

Definition start (update : Telegram.Update) : M unit :=
  msg <- message_of "from_user" update ;;
  from <- attr "id" (Telegram.from_user msg) ;;
  modify (set_user (Telegram.id from) (Telegram.full_name from)) ;;
  n <- global "user_name" user_name ;;
  emit (reply_markdown ("Hello " +:+ n +:+ ", I'm TelegrativeAI 🤖🙂")) ;;
  emit (reply_animation start_animation) ;;
  emit (time_sleep 1) ;;
  check_user update None.

(** [caption if caption is not None else "Summarize this file"] *)
Definition caption_or_default (caption : option string) : string :=
  match caption with
  | Some c => c
  | None => "Summarize this file"
  end.

Definition handle_file (update : Telegram.Update) : M unit :=
  msg <- message_of "document" update ;;
  document <- attr "file_id" (Telegram.document msg) ;;
  emit (call_get_file (Telegram.file_id document)) ;;
  file <- lift (bot_get_file env (Telegram.file_id document)) ;;
  let caption := caption_or_default (Telegram.caption msg) in
  if decide (Telegram.mime_type document = Some "text/plain") then
    emit (call_requests_get (Telegram.file_path file)) ;;
    response_text <- lift (requests_get env (Telegram.file_path file)) ;;
    m <- user_data_get ;;
    answer <- rag_with_documents_from_text (lang_model m) response_text caption ;;
    emit (reply_text answer)
  else if decide (Telegram.mime_type document = Some "application/pdf") then
    m <- user_data_get ;;
    answer <- rag_with_documents (lang_model m) (Telegram.file_path file) caption ;;
    emit (reply_text answer)
  else
    emit (reply_text "Please send the file in PDF or TXT format").

Definition send_image (update : Telegram.Update) : M unit :=
  m <- user_data_get ;;
  msg <- message_of "text" update ;;
  r <- create_image (model m) (Telegram.text msg) ;;
  let '(image, text) := r in
  emit (reply_photo image text).

Definition get_message (update : Telegram.Update) : M unit :=
  msg <- message_of "reply_to_message" update ;;
  match Telegram.reply_to_message msg with
  | Some replied_text =>
      m <- user_data_get ;;
      send_message <- chat_message (model m)
        (Py.format_opt replied_text +:+ " in addition to " +:+ Py.format_opt (Telegram.text msg)) ;;
      emit (reply_markdown send_message)
  | None =>
      t <- attr "lower" (Telegram.text msg) ;;
      if Py.contains "draw" (Py.lower t) then send_image update
      else if Py.startswith t "sk-" then
        let api_text := t in
        emit (message_delete (Telegram.message_id msg)) ;;
        check_user update (Some api_text)
      else
        m <- user_data_get ;;
        send_message <- chat_message (model m) t ;;
        emit (reply_markdown send_message)
  end.

(** The temporary file is created with [delete=False]: it stays on disk
    when the [with] block closes it. *)
Definition download_audio_to_local (file : Telegram.File) : M string :=
  emit (call_download file) ;;
  audio <- lift (download_as_bytearray env file) ;;
  w <- get_world ;;
  let tmp_file_path := temporary_name env (fs w) ".ogg" in
  modify (fun w => set_fs (<[tmp_file_path := audio]> (fs w)) w) ;;
  ret tmp_file_path.

(** [open(path, "rb")], by the content read from it. *)
Definition open_rb (path : string) : M (list Byte.byte) :=
  w <- get_world ;;
  match fs w !! path with
  | Some bytes => ret bytes
  | None => raise (FileNotFoundError path)
  end.

Definition os_remove (path : string) : M unit :=
  w <- get_world ;;
  match fs w !! path with
  | Some _ => modify (fun w => set_fs (delete path (fs w)) w)
  | None => raise (FileNotFoundError path)
  end.

(** The [with open(...)] block only closes the handle when it is left, on
    either way out; [os.remove] is the statement after the block. *)
Definition audio (update : Telegram.Update) : M unit :=
  msg <- message_of "voice" update ;;
  match Telegram.voice msg with
  | Some v =>
      let file_id := Telegram.voice_file_id v in
      emit (call_get_file file_id) ;;
      file <- lift (bot_get_file env file_id) ;;
      temp_file_path <- download_audio_to_local file ;;
      audio_file <- open_rb temp_file_path ;;
      m <- user_data_get ;;
      voice_text <- transcribe_voice (model m) audio_file ;;
      m' <- user_data_get ;;
      answer <- chat_message (model m') voice_text ;;
      emit (reply_markdown answer) ;;
      os_remove temp_file_path
  | None => ret tt
  end.

Definition button (update : Telegram.Update) : M unit :=
  query <- attr "answer" (Telegram.callback_query update) ;;
  emit query_answer ;;
  if decide (Telegram.data query = Some "yes") then
    emit (reply_text "OK. Let's Start") ;;
    emit (reply_animation yes_animation) ;;
    emit (reply_text "Write your API Key")
  else
    emit (reply_text "OK. See you later!") ;;
    emit (reply_animation no_animation).

Definition off (update : Telegram.Update) : M unit :=
  u <- global "user" user ;;
  w <- get_world ;;
  match user_data w !! u with
  | Some _ =>
      modify (fun w => set_user_data (delete u (user_data w)) w) ;;
      message_of "reply_text" update ;;
      emit (reply_text "Your API Key deleted")
  | None => ret tt
  end.

Definition error_message (update : Telegram.Update) : M unit :=
  u <- global "user" user ;;
  w <- get_world ;;
  match user_data w !! u with
  | None => start update
  | Some _ =>
      message_of "reply_text" update ;;
      emit (reply_text "An error occurred please try again later")
  end.

End Handlers.

(** ** Sends that can fail

    The handlers above record every send as delivered. A send is an
    awaited call of the Bot API and raises when the API refuses it (a text
    that is no valid Markdown, a chat that is gone, the network). For
    [check_user], where the write to [context.user_data] comes after two
    sends, the same code is given here over a transport that answers each
    send; with the transport that delivers everything it is [check_user]
    ([check_user_via_delivered] below). *)

Definition Transport : Type := Event -> result unit.

Definition delivered : Transport := fun _ => Ok tt.

Section Transport.

Variable deliver : Transport.
Variable env : Env.

(** An awaited send: recorded when the API accepted it. *)
Definition send (e : Event) : M unit :=
  lift (deliver e) ;;
  emit e.

Definition hello_via (update : Telegram.Update) : M unit :=
  message_of "reply_markdown" update ;;
  n <- global "user_name" user_name ;;
  send (reply_markdown ("Hello " +:+ n +:+ " , What Can I Help With ?")).

Definition question_via (update : Telegram.Update) : M unit :=
  message_of "reply_text" update ;;
  send (reply_text_markup "Would you like to continue?"
          [[("Yes", "yes")]; [("No", "no")]]).

Definition check_user_prompt_via (update : Telegram.Update) : M unit :=
  message_of "reply_markdown" update ;;
  send (reply_markdown start_message) ;;
  emit (time_sleep 1) ;;
  question_via update.

Definition check_user_via (update : Telegram.Update) (data : option string) : M unit :=
  u <- global "user" user ;;
  w <- get_world ;;
  match user_data w !! u with
  | None =>
      match data with
      | Some d =>
          if String.eqb d EmptyString then check_user_prompt_via update
          else
            m <- OpenAIModelManager_init env d ;;
            modify (set_manager m) ;;
            message_of "reply_text" update ;;
            send (reply_text (key_echo d)) ;;
            hello_via update ;;
            u' <- global "user" user ;;
            m' <- global "manager" manager ;;
            modify (fun w => set_user_data (<[u' := m']> (user_data w)) w)
      | None => check_user_prompt_via update
      end
  | Some _ => hello_via update
  end.

End Transport.

(** ** main.py *)

(** What the update framework decides: which updates each handler class
    and filter accepts. The handler table below is that of
    [configure_handlers]; the theorems about dispatch hold for every such
    framework. *)
Record Framework := {
  CallbackQueryHandler : Telegram.Update -> bool;
  CommandHandler : string -> Telegram.Update -> bool;
  filters_VOICE : Telegram.Update -> bool;
  filters_Document_ALL : Telegram.Update -> bool;
  filters_TEXT : Telegram.Update -> bool;
  filters_COMMAND : Telegram.Update -> bool
}.

Definition Handler : Type := (Telegram.Update -> bool) * (Telegram.Update -> M unit).

Section Main.

Variable env : Env.
Variable fw : Framework.

(** The [app.add_handler] calls, in order. *)
Definition configure_handlers : list Handler :=
  [ (CallbackQueryHandler fw, button);
    (CommandHandler fw "start", start env);
    (filters_VOICE fw, audio env);
    (filters_Document_ALL fw, handle_file env);
    (fun update => filters_TEXT fw update && negb (filters_COMMAND fw update), get_message env) ].

(** [app.add_error_handler(error_message)] *)
Definition error_handler : Telegram.Update -> M unit := error_message env.

(** The first handler whose check accepts the update takes it. *)
Fixpoint dispatch (handlers : list Handler) (update : Telegram.Update)
    : option (Telegram.Update -> M unit) :=
  match handlers with
  | [] => None
  | (check, callback) :: rest =>
      if check update then Some callback else dispatch rest update
  end.

(** One update through the application: an exception of the callback goes
    to the error handler, an exception of the error handler is dropped. *)
Definition process_update (update : Telegram.Update) (w : World) : World :=
  match dispatch configure_handlers update with
  | None => w
  | Some callback =>
      match callback update w with
      | (Ok _, w') => w'
      | (Raise _, w') => snd (error_handler update w')
      end
  end.

End Main.

(** A framework instance for the examples: a callback query, a voice, a
    document or a text is accepted when the update carries one; a command
    is a text that opens with a slash, and its name runs to the first
    blank or at-sign. *)
Module Ptb.

Fixpoint command_name (s : string) : string :=
  match s with
  | EmptyString => EmptyString
  | String c s' =>
      if Ascii.eqb c " "%char || Ascii.eqb c "@"%char then EmptyString
      else String c (command_name s')
  end.

Definition text_of (update : Telegram.Update) : option string :=
  match Telegram.message update with
  | Some msg => Telegram.text msg
  | None => None
  end.

Definition is_command (update : Telegram.Update) : bool :=
  match text_of update with
  | Some (String "/"%char _) => true
  | _ => false
  end.

Definition command_is (name : string) (update : Telegram.Update) : bool :=
  match text_of update with
  | Some (String "/"%char rest) => String.eqb (Py.lower (command_name rest)) name
  | _ => false
  end.

Definition has {A} (proj : Telegram.Message -> option A) (update : Telegram.Update) : bool :=
  match Telegram.message update with
  | Some msg => bool_decide (is_Some (proj msg))
  | None => false
  end.

Definition framework : Framework :=
  {| CallbackQueryHandler := fun update => bool_decide (is_Some (Telegram.callback_query update));
     CommandHandler := command_is;
     filters_VOICE := has Telegram.voice;
     filters_Document_ALL := has Telegram.document;
     filters_TEXT := has Telegram.text;
     filters_COMMAND := is_command |}.

End Ptb.

(** ** What the properties observe *)

(** A relation between the world before and after a computation that
    every run of it respects. *)
Definition preserves (R : World -> World -> Prop) {A} (c : M A) : Prop :=
  forall w, R w (snd (c w)).

Definition validation_key (e : Event) : option string :=
  match e with
  | call_models_list k => Some k
  | _ => None
  end.

(** The keys validation was attempted with, oldest first. *)
Definition validation_calls (t : list Event) : list string :=
  omap validation_key t.

Definition same_validations (w w' : World) : Prop :=
  validation_calls (trace w') = validation_calls (trace w).

Definition sessions_kept (w w' : World) : Prop :=
  forall (u : Z) (m : OpenAIModelManager),
    user_data w !! u = Some m -> user_data w' !! u = Some m.

(** Whether an update is a text message that begins with "sk-". *)
Definition key_shaped (update : Telegram.Update) : bool :=
  match Telegram.message update with
  | Some msg =>
      match Telegram.text msg with
      | Some t => Py.startswith t "sk-"
      | None => false
      end
  | None => false
  end.

(** The world [check_user] leaves after a key passed validation: the
    validation call, the global [manager], the echo, the greeting and the
    session stored under [u]. *)
Definition world_after_key (u : Z) (n d : string) (w : World) : World :=
  set_user_data (<[u := new_manager d]> (user_data w))
    (log (reply_markdown ("Hello " +:+ n +:+ " , What Can I Help With ?"))
       (log (reply_text (key_echo d))
          (set_manager (new_manager d)
             (log (call_models_list d) w)))).

(** C2 as the spec words it: every text that begins with "sk-" is deleted
    from the chat and validation is attempted with it. *)
Definition key_entry_as_stated : Prop :=
  forall env update w msg t,
    Telegram.message update = Some msg ->
    Telegram.text msg = Some t ->
    Py.startswith t "sk-" = true ->
    In (message_delete (Telegram.message_id msg)) (trace (snd (get_message env update w))) /\
    In t (validation_calls (trace (snd (get_message env update w)))).

(** The user prompt of a chat request: the content of its last message. *)
Definition chat_prompt_of (e : Event) : option string :=
  match e with
  | call_chat _ req => content <$> last (messages req)
  | _ => None
  end.

(** The prompts sent to the chat model, oldest first. *)
Definition chat_prompts (t : list Event) : list string :=
  omap chat_prompt_of t.

(** The text of the retrieved chunks, in retrieval order, nothing between
    them. *)
Definition rank_order_context (docs : list Document) : string :=
  foldr (fun document rest => page_content document +:+ rest) EmptyString docs.

(** C5 as the spec words it: the template of the spec, with the quotes
    around it taken as part of the text ([quoted]) or as delimiters. *)
Definition spec_template (quoted : bool) (question context : string) : string :=
  let body :=
    "Here is your question: " +:+ question +:+ Py.nl +:+
    "We have the following information to answer it: " +:+ context +:+ "." +:+ Py.nl +:+
    "Use only the information provided here to answer the question. Do not go beyond this." in
  if quoted then Py.dquote +:+ body +:+ Py.dquote else body.

Definition prompt_as_stated (quoted : bool) : Prop :=
  forall env self text_content question w docs,
    get_relevant_documents env (embed_model self)
      (split_documents env 1000 0 [ {| page_content := text_content |} ]) question = Ok docs ->
    chat_prompts (trace (snd (rag_with_documents_from_text env self text_content question w)))
    = (chat_prompts (trace w)
       ++ [spec_template quoted question (rank_order_context docs)])%list.

(** The arguments [create_image] passes to [images.generate]. *)
Definition image_request (self : OpenAIHelper) (prompt : option string) : ImageRequest :=
  {| image_prompt := prompt;
     image_model := image_model_name self;
     image_size := "1024x1024";
     image_quality := "standard";
     image_n := 1;
     image_response_format := "url" |}.

(** Requests to a hosted model made on behalf of a session: chat,
    transcription, image generation and retrieval (embedding). Key
    validation is not one of them. *)
Definition is_model_request (e : Event) : bool :=
  match e with
  | call_chat _ _ | call_transcribe _ _ | call_image _ _ | call_retrieve _ _ _ => true
  | _ => false
  end.

Definition model_requests (t : list Event) : list Event :=
  List.filter is_model_request t.

Definition same_model_requests (w w' : World) : Prop :=
  model_requests (trace w') = model_requests (trace w).

(** The current user, if there is one, has no stored session. *)
Definition no_session (w : World) : Prop :=
  match user w with
  | Some u => user_data w !! u = None
  | None => True
  end.

(** A manager as [OpenAIModelManager(key)] returns it: built from one key,
    and that key passes the validation call. *)
Definition validated (env : Env) (m : OpenAIModelManager) : Prop :=
  m = new_manager (openai_client (model m)) /\
  models_list env (openai_client (model m)) = Ok tt.

Definition sessions_validated (env : Env) (w : World) : Prop :=
  forall u m, user_data w !! u = Some m -> validated env m.

(** Every session of [w'] was in [w] already or is a validated one. *)
Definition admits (env : Env) (w w' : World) : Prop :=
  forall u m,
    user_data w' !! u = Some m -> user_data w !! u = Some m \/ validated env m.


Definition welcome_back (n : string) : string := "Hello " +:+ n +:+ " , What Can I Help With ?".




(** C4 as the spec words it: every document of another type, from a user
    with a session, gets the fixed reply. *)
Definition unsupported_type_as_stated : Prop :=
  forall env update w msg doc u m,
    Telegram.message update = Some msg ->
    Telegram.document msg = Some doc ->
    user w = Some u ->
    user_data w !! u = Some m ->
    Telegram.mime_type doc <> Some "text/plain" ->
    Telegram.mime_type doc <> Some "application/pdf" ->
    In (reply_text "Please send the file in PDF or TXT format")
       (trace (snd (handle_file env update w))).


(** The trace only grows. *)
Definition trace_grows (w w' : World) : Prop :=
  exists rest, trace w' = (trace w ++ rest)%list.

(** ** Concrete inputs for the examples *)
Module Sample.

Definition voice_bytes : list Byte.byte := [Byte.x4f; Byte.x67; Byte.x67; Byte.x53].

(** Every service answers; only the key "sk-valid" passes validation. *)
Definition env : Env :=
  {| models_list := fun k =>
       if String.eqb k "sk-valid" then Ok tt else Raise (ServiceError "AuthenticationError");
     chat_completions_create := fun _ req =>
       Ok ("echo: " +:+ content (List.last (messages req) {| role := ""; content := "" |}));
     audio_transcriptions_create := fun _ _ => Ok "hello from a voice note";
     images_generate := fun _ _ => Ok ("https://images.example/1.png", "A red apple on a table");
     pdf_load := fun _ => Ok [ {| page_content := "page one" |}; {| page_content := "page two" |} ];
     split_documents := fun _ _ docs => docs;
     get_relevant_documents := fun _ docs _ => Ok docs;
     requests_get := fun _ => Ok "the text of the file";
     bot_get_file := fun file_id => Ok {| Telegram.file_path := "https://files.example/" +:+ file_id |};
     download_as_bytearray := fun _ => Ok voice_bytes;
     temporary_name := fun _ suffix => "/tmp/tmpk3v9" +:+ suffix |}.

(** The same services with the transcription model out of quota. *)
Definition env_transcription_down : Env :=
  {| models_list := models_list env;
     chat_completions_create := chat_completions_create env;
     audio_transcriptions_create := fun _ _ => Raise (ServiceError "RateLimitError");
     images_generate := images_generate env;
     pdf_load := pdf_load env;
     split_documents := split_documents env;
     get_relevant_documents := get_relevant_documents env;
     requests_get := requests_get env;
     bot_get_file := bot_get_file env;
     download_as_bytearray := download_as_bytearray env;
     temporary_name := temporary_name env |}.

Definition alice : Telegram.User := {| Telegram.id := 42; Telegram.full_name := "Alice" |}.

Definition the_manager : OpenAIModelManager := new_manager "sk-valid".

(** Before any [/start]: no global is bound. *)
Definition fresh : World :=
  {| user := None; user_name := None; manager := None;
     user_data := ∅; fs := ∅; trace := [] |}.

(** After [/start] and the Yes button: the key is awaited. *)
Definition awaiting_key : World :=
  {| user := Some 42%Z; user_name := Some "Alice"; manager := None;
     user_data := ∅; fs := ∅; trace := [] |}.

(** After a valid key: a session is stored. *)
Definition active : World :=
  {| user := Some 42%Z; user_name := Some "Alice"; manager := Some the_manager;
     user_data := {[ 42%Z := the_manager ]}; fs := ∅; trace := [] |}.

Definition update_of (msg : Telegram.Message) : Telegram.Update :=
  {| Telegram.message := Some msg; Telegram.callback_query := None |}.

Definition text_msg (t : string) : Telegram.Message :=
  {| Telegram.message_id := 7; Telegram.from_user := Some alice;
     Telegram.text := Some t; Telegram.caption := None; Telegram.voice := None;
     Telegram.document := None; Telegram.reply_to_message := None |}.

Definition reply_msg (replied : option string) (t : string) : Telegram.Message :=
  {| Telegram.message_id := 7; Telegram.from_user := Some alice;
     Telegram.text := Some t; Telegram.caption := None; Telegram.voice := None;
     Telegram.document := None; Telegram.reply_to_message := Some replied |}.

Definition the_voice : Telegram.Voice := {| Telegram.voice_file_id := "voice-1" |}.

Definition voice_msg : Telegram.Message :=
  {| Telegram.message_id := 7; Telegram.from_user := Some alice;
     Telegram.text := None; Telegram.caption := None;
     Telegram.voice := Some the_voice;
     Telegram.document := None; Telegram.reply_to_message := None |}.

Definition the_document (mime : option string) : Telegram.Document :=
  {| Telegram.file_id := "doc-1"; Telegram.mime_type := mime |}.

Definition document_msg (mime : option string) (caption : option string) : Telegram.Message :=
  {| Telegram.message_id := 7; Telegram.from_user := Some alice;
     Telegram.text := None; Telegram.caption := caption; Telegram.voice := None;
     Telegram.document := Some (the_document mime);
     Telegram.reply_to_message := None |}.

Definition text_message (t : string) : Telegram.Update := update_of (text_msg t).
Definition reply_message (replied : option string) (t : string) : Telegram.Update :=
  update_of (reply_msg replied t).
Definition voice_message : Telegram.Update := update_of voice_msg.
Definition document_message (mime caption : option string) : Telegram.Update :=
  update_of (document_msg mime caption).

(** The file object the sample [bot_get_file] answers with. *)
Definition file_of (file_id : string) : Telegram.File :=
  {| Telegram.file_path := "https://files.example/" +:+ file_id |}.

End Sample.

(** Further environments for the examples. *)
Module Outage.

(** The sample services with the chat model timing out. *)
Definition chat_down : Env :=
  {| models_list := models_list Sample.env;
     chat_completions_create := fun _ _ => Raise (ServiceError "APITimeoutError");
     audio_transcriptions_create := audio_transcriptions_create Sample.env;
     images_generate := images_generate Sample.env;
     pdf_load := pdf_load Sample.env;
     split_documents := split_documents Sample.env;
     get_relevant_documents := get_relevant_documents Sample.env;
     requests_get := requests_get Sample.env;
     bot_get_file := bot_get_file Sample.env;
     download_as_bytearray := download_as_bytearray Sample.env;
     temporary_name := temporary_name Sample.env |}.

(** The sample services with a PDF the loader cannot parse. *)
Definition pdf_unreadable : Env :=
  {| models_list := models_list Sample.env;
     chat_completions_create := chat_completions_create Sample.env;
     audio_transcriptions_create := audio_transcriptions_create Sample.env;
     images_generate := images_generate Sample.env;
     pdf_load := fun _ => Raise (ServiceError "PdfReadError");
     split_documents := split_documents Sample.env;
     get_relevant_documents := get_relevant_documents Sample.env;
     requests_get := requests_get Sample.env;
     bot_get_file := bot_get_file Sample.env;
     download_as_bytearray := download_as_bytearray Sample.env;
     temporary_name := temporary_name Sample.env |}.

(** The sample services with the embedding model refusing requests. *)
Definition retrieval_down : Env :=
  {| models_list := models_list Sample.env;
     chat_completions_create := chat_completions_create Sample.env;
     audio_transcriptions_create := audio_transcriptions_create Sample.env;
     images_generate := images_generate Sample.env;
     pdf_load := pdf_load Sample.env;
     split_documents := split_documents Sample.env;
     get_relevant_documents := fun _ _ _ => Raise (ServiceError "RateLimitError");
     requests_get := requests_get Sample.env;
     bot_get_file := bot_get_file Sample.env;
     download_as_bytearray := download_as_bytearray Sample.env;
     temporary_name := temporary_name Sample.env |}.

(** The sample services with the file lookup refused (a file over the
    size the Bot API serves). *)
Definition lookup_down : Env :=
  {| models_list := models_list Sample.env;
     chat_completions_create := chat_completions_create Sample.env;
     audio_transcriptions_create := audio_transcriptions_create Sample.env;
     images_generate := images_generate Sample.env;
     pdf_load := pdf_load Sample.env;
     split_documents := split_documents Sample.env;
     get_relevant_documents := get_relevant_documents Sample.env;
     requests_get := requests_get Sample.env;
     bot_get_file := fun _ => Raise (ServiceError "BadRequest: File is too big");
     download_as_bytearray := download_as_bytearray Sample.env;
     temporary_name := temporary_name Sample.env |}.


(** Alice has a session; Bob ran [/start] last and has none yet. *)
Definition newcomer : World :=
  {| user := Some 43%Z; user_name := Some "Bob"; manager := Some Sample.the_manager;
     user_data := {[ 42%Z := Sample.the_manager ]};
     fs := ∅; trace := [] |}.

End Outage.

(** * Properties *)

Local Open Scope list_scope.

(** ** The monad computes *)

Lemma bind_ret_l {A B} (a : A) (k : A -> M B) : bind (ret a) k = k a.
Proof. reflexivity. Qed.

Lemma bind_run {A B} (c : M A) (k : A -> M B) (w w' : World) (a : A) :
  c w = (Ok a, w') -> bind c k w = k a w'.
Proof. intros H. unfold bind. now rewrite H. Qed.

Lemma global_run {A} (name : string) (proj : World -> option A) (w : World) (a : A) :
  proj w = Some a -> global name proj w = (Ok a, w).
Proof. intros H. unfold global. now rewrite H. Qed.

Lemma user_data_get_run (w : World) (u : Z) (m : OpenAIModelManager) :
  user w = Some u -> user_data w !! u = Some m -> user_data_get w = (Ok m, w).
Proof.
  intros Hu Hm. unfold user_data_get.
  rewrite (bind_run _ _ w w u) by now apply global_run.
  unfold bind, get_world. now rewrite Hm.
Qed.

(** ** Relations every step of a computation respects *)

Section Preservation.

Context (R : World -> World -> Prop) `{!Reflexive R} `{!Transitive R}.

Lemma preserves_ret {A} (a : A) : preserves R (ret a).
Proof. intros w. simpl. reflexivity. Qed.

Lemma preserves_raise {A} (e : Exn) : preserves R (@raise A e).
Proof. intros w. simpl. reflexivity. Qed.

Lemma preserves_lift {A} (r : result A) : preserves R (lift r).
Proof. intros w. simpl. reflexivity. Qed.

Lemma preserves_get_world : preserves R get_world.
Proof. intros w. simpl. reflexivity. Qed.

Lemma preserves_attr {A} (name : string) (o : option A) : preserves R (attr name o).
Proof. destruct o; [apply preserves_ret | apply preserves_raise]. Qed.

Lemma preserves_global {A} (name : string) (proj : World -> option A) :
  preserves R (global name proj).
Proof. intros w. unfold global. destruct (proj w); simpl; reflexivity. Qed.

Lemma preserves_modify (f : World -> World) :
  (forall w, R w (f w)) -> preserves R (modify f).
Proof. intros H w. simpl. apply H. Qed.

Lemma preserves_bind {A B} (c : M A) (k : A -> M B) :
  preserves R c -> (forall a, preserves R (k a)) -> preserves R (bind c k).
Proof.
  intros Hc Hk w. unfold bind.
  specialize (Hc w). destruct (c w) as [[a|e] w1]; simpl in *.
  - transitivity w1; [exact Hc | apply Hk].
  - exact Hc.
Qed.

End Preservation.

(** Splits a computation along its binds and branches; what is left are
    the steps that touch the world. *)
Ltac preserve_step :=
  match goal with
  | |- preserves _ (bind _ _) => apply preserves_bind; [ typeclasses eauto | | intros ? ]
  | |- preserves _ (ret _) => apply preserves_ret; typeclasses eauto
  | |- preserves _ (raise _) => apply preserves_raise; typeclasses eauto
  | |- preserves _ (lift _) => apply preserves_lift; typeclasses eauto
  | |- preserves _ get_world => apply preserves_get_world; typeclasses eauto
  | |- preserves _ (attr _ _) => apply preserves_attr; typeclasses eauto
  | |- preserves _ (message_of _ _) => apply preserves_attr; typeclasses eauto
  | |- preserves _ (global _ _) => apply preserves_global; typeclasses eauto
  | |- preserves _ (match ?x with _ => _ end) => destruct x
  end.

(** ** Validation calls in a trace *)

#[local] Instance same_validations_refl : Reflexive same_validations.
Proof. intros w. reflexivity. Qed.

#[local] Instance same_validations_trans : Transitive same_validations.
Proof. intros a b c H1 H2. unfold same_validations in *. congruence. Qed.

Lemma validation_calls_log (e : Event) (w : World) :
  validation_calls (trace (log e w)) =
  validation_calls (trace w) ++ match validation_key e with Some k => [k] | None => [] end.
Proof.
  unfold validation_calls. simpl. rewrite omap_app. simpl.
  now destruct (validation_key e).
Qed.

Lemma quiet_emit (e : Event) :
  validation_key e = None -> preserves same_validations (emit e).
Proof.
  intros H. apply preserves_modify. intros w. unfold same_validations.
  rewrite validation_calls_log, H. apply app_nil_r.
Qed.

Lemma quiet_modify (f : World -> World) :
  (forall w, trace (f w) = trace w) -> preserves same_validations (modify f).
Proof.
  intros H. apply preserves_modify. intros w. unfold same_validations. now rewrite H.
Qed.

Create HintDb quiet discriminated.

(** Closes a goal that a computation leaves the validation calls alone,
    from the lemmas already proved for the computations it calls. *)
Ltac quiet :=
  repeat first
    [ solve [ auto with quiet nocore ]
    | preserve_step
    | apply quiet_emit; reflexivity
    | apply quiet_modify; reflexivity
    | progress (simpl; intros) ].

Section Validation.

Variable env : Env.

Lemma chat_message_quiet self prompt :
  preserves same_validations (chat_message env self prompt).
Proof. unfold chat_message. quiet. Qed.

Lemma transcribe_voice_quiet self bytes :
  preserves same_validations (transcribe_voice env self bytes).
Proof. unfold transcribe_voice. quiet. Qed.

Lemma create_image_quiet self prompt :
  preserves same_validations (create_image env self prompt).
Proof. unfold create_image. quiet. Qed.

Lemma user_data_get_quiet : preserves same_validations user_data_get.
Proof. unfold user_data_get. quiet. Qed.

#[local] Hint Resolve chat_message_quiet transcribe_voice_quiet create_image_quiet
  user_data_get_quiet : quiet.

Lemma retrieve_and_answer_quiet self docs prompt :
  preserves same_validations (retrieve_and_answer env self docs prompt).
Proof. unfold retrieve_and_answer. quiet. Qed.

#[local] Hint Resolve retrieve_and_answer_quiet : quiet.

Lemma rag_with_documents_quiet self filepath prompt :
  preserves same_validations (rag_with_documents env self filepath prompt).
Proof. unfold rag_with_documents. quiet. Qed.

Lemma rag_with_documents_from_text_quiet self text_content prompt :
  preserves same_validations (rag_with_documents_from_text env self text_content prompt).
Proof. unfold rag_with_documents_from_text. quiet. Qed.

Lemma hello_quiet update : preserves same_validations (hello update).
Proof. unfold hello. quiet. Qed.

Lemma question_quiet update : preserves same_validations (question update).
Proof. unfold question. quiet. Qed.

#[local] Hint Resolve rag_with_documents_quiet rag_with_documents_from_text_quiet
  hello_quiet question_quiet : quiet.

Lemma check_user_prompt_quiet update :
  preserves same_validations (check_user_prompt update).
Proof. unfold check_user_prompt. quiet. Qed.

#[local] Hint Resolve check_user_prompt_quiet : quiet.

(** Without a key to try, [check_user] validates nothing. *)
Lemma check_user_no_key_quiet update :
  preserves same_validations (check_user env update None).
Proof. unfold check_user. quiet. Qed.

#[local] Hint Resolve check_user_no_key_quiet : quiet.

Lemma start_quiet update : preserves same_validations (start env update).
Proof. unfold start. quiet. Qed.

#[local] Hint Resolve start_quiet : quiet.

Lemma error_message_quiet update :
  preserves same_validations (error_message env update).
Proof. unfold error_message. quiet. Qed.

Lemma handle_file_quiet update :
  preserves same_validations (handle_file env update).
Proof. unfold handle_file. quiet. Qed.

Lemma send_image_quiet update :
  preserves same_validations (send_image env update).
Proof. unfold send_image. quiet. Qed.

Lemma download_audio_to_local_quiet file :
  preserves same_validations (download_audio_to_local env file).
Proof. unfold download_audio_to_local. quiet. Qed.

Lemma open_rb_quiet path : preserves same_validations (open_rb path).
Proof. unfold open_rb. quiet. Qed.

Lemma os_remove_quiet path : preserves same_validations (os_remove path).
Proof. unfold os_remove. quiet. Qed.

#[local] Hint Resolve send_image_quiet download_audio_to_local_quiet open_rb_quiet
  os_remove_quiet : quiet.

Lemma audio_quiet update : preserves same_validations (audio env update).
Proof. unfold audio. quiet. Qed.

Lemma button_quiet update : preserves same_validations (button update).
Proof. unfold button. quiet. Qed.

(** The only call of [check_user] with a key sits behind the prefix test. *)
Lemma get_message_quiet update :
  key_shaped update = false -> preserves same_validations (get_message env update).
Proof.
  unfold key_shaped, get_message, message_of. intros Hkey.
  destruct (Telegram.message update) as [msg|]; simpl; [ | apply preserves_raise; typeclasses eauto ].
  rewrite bind_ret_l.
  destruct (Telegram.reply_to_message msg) as [replied|]; [ quiet | ].
  destruct (Telegram.text msg) as [t|]; simpl; [ | apply preserves_raise; typeclasses eauto ].
  rewrite bind_ret_l, Hkey.
  quiet.
Qed.

End Validation.

(** ** Dispatch *)

Lemma dispatch_configure_handlers env fw update callback :
  dispatch (configure_handlers env fw) update = Some callback ->
  callback = button \/ callback = start env \/ callback = audio env \/
  callback = handle_file env \/ callback = get_message env.
Proof.
  unfold configure_handlers. simpl.
  repeat match goal with
         | |- context [if ?b then _ else _] => destruct b
         end;
    intros [= <-]; auto 6.
Qed.

(** A text update that does not begin with "sk-" is either not taken by
    [get_message] or runs it quietly. *)
Lemma process_update_quiet env fw update w :
  key_shaped update = false ->
  same_validations w (process_update env fw update w).
Proof.
  intros Hkey. unfold process_update, error_handler.
  destruct (dispatch (configure_handlers env fw) update) as [callback|] eqn:Hd;
    [ | reflexivity ].
  assert (Hcb : preserves same_validations (callback update)).
  { apply dispatch_configure_handlers in Hd.
    destruct Hd as [-> | [-> | [-> | [-> | ->]]]];
      auto using button_quiet, start_quiet, audio_quiet, handle_file_quiet, get_message_quiet. }
  specialize (Hcb w).
  destruct (callback update w) as [[[]|e] w1]; simpl in Hcb; [ exact Hcb | ].
  transitivity w1; [ exact Hcb | apply error_message_quiet ].
Qed.

(** ** Sessions that are stored stay stored *)

#[local] Instance sessions_kept_refl : Reflexive sessions_kept.
Proof. intros w u m H. exact H. Qed.

#[local] Instance sessions_kept_trans : Transitive sessions_kept.
Proof. intros a b c H1 H2 u m H. apply H2, H1, H. Qed.

Lemma keeps_modify (f : World -> World) :
  (forall w, user_data (f w) = user_data w) -> preserves sessions_kept (modify f).
Proof.
  intros H. apply preserves_modify. intros w u m Hm. now rewrite H.
Qed.

Create HintDb keeps discriminated.

Ltac keeps :=
  repeat first
    [ solve [ auto with keeps nocore ]
    | preserve_step
    | apply keeps_modify; reflexivity
    | progress (simpl; intros) ].

Section Sessions.

Variable env : Env.

Lemma chat_message_keeps self prompt :
  preserves sessions_kept (chat_message env self prompt).
Proof. unfold chat_message, emit. keeps. Qed.

Lemma transcribe_voice_keeps self bytes :
  preserves sessions_kept (transcribe_voice env self bytes).
Proof. unfold transcribe_voice, emit. keeps. Qed.

Lemma create_image_keeps self prompt :
  preserves sessions_kept (create_image env self prompt).
Proof. unfold create_image, emit. keeps. Qed.

Lemma user_data_get_keeps : preserves sessions_kept user_data_get.
Proof. unfold user_data_get. keeps. Qed.

#[local] Hint Resolve chat_message_keeps transcribe_voice_keeps create_image_keeps
  user_data_get_keeps : keeps.

Lemma retrieve_and_answer_keeps self docs prompt :
  preserves sessions_kept (retrieve_and_answer env self docs prompt).
Proof. unfold retrieve_and_answer, emit. keeps. Qed.

#[local] Hint Resolve retrieve_and_answer_keeps : keeps.

Lemma rag_with_documents_keeps self filepath prompt :
  preserves sessions_kept (rag_with_documents env self filepath prompt).
Proof. unfold rag_with_documents, emit. keeps. Qed.

Lemma rag_with_documents_from_text_keeps self text_content prompt :
  preserves sessions_kept (rag_with_documents_from_text env self text_content prompt).
Proof. unfold rag_with_documents_from_text. keeps. Qed.

Lemma hello_keeps update : preserves sessions_kept (hello update).
Proof. unfold hello, emit. keeps. Qed.

Lemma question_keeps update : preserves sessions_kept (question update).
Proof. unfold question, emit. keeps. Qed.

#[local] Hint Resolve rag_with_documents_keeps rag_with_documents_from_text_keeps
  hello_keeps question_keeps : keeps.

Lemma check_user_prompt_keeps update :
  preserves sessions_kept (check_user_prompt update).
Proof. unfold check_user_prompt, emit. keeps. Qed.

Lemma OpenAIModelManager_init_keeps api_key :
  preserves sessions_kept (OpenAIModelManager_init env api_key).
Proof. unfold OpenAIModelManager_init, _validate_api_key, check_api_key, emit. keeps. Qed.

(** [check_user] stores a session only under an id that has none. *)
Lemma check_user_keeps update data :
  preserves sessions_kept (check_user env update data).
Proof.
  intros w. unfold check_user.
  unfold bind at 1. unfold global at 1.
  destruct (user w) as [u|] eqn:Hu; [ | reflexivity ].
  unfold bind at 1. unfold get_world at 1.
  destruct (user_data w !! u) as [m|] eqn:Hm; [ apply hello_keeps | ].
  destruct data as [d|]; [ | apply check_user_prompt_keeps ].
  destruct (String.eqb d EmptyString); [ apply check_user_prompt_keeps | ].
  unfold OpenAIModelManager_init, _validate_api_key, check_api_key, hello, message_of.
  unfold bind, emit, modify, lift, attr, global, ret, raise. simpl.
  destruct (models_list env d); simpl; [ | intros ? ? H; exact H ].
  destruct (Telegram.message update); simpl; [ | intros ? ? H; exact H ].
  destruct (user_name w); simpl; [ | intros ? ? H; exact H ].
  rewrite Hu. simpl.
  intros u0 m0 H0. simpl.
  rewrite lookup_insert_ne; [ exact H0 | congruence ].
Qed.

#[local] Hint Resolve check_user_prompt_keeps check_user_keeps : keeps.

Lemma start_keeps update : preserves sessions_kept (start env update).
Proof. unfold start, emit. keeps. Qed.

#[local] Hint Resolve start_keeps : keeps.

Lemma error_message_keeps update : preserves sessions_kept (error_message env update).
Proof. unfold error_message, emit. keeps. Qed.

Lemma handle_file_keeps update : preserves sessions_kept (handle_file env update).
Proof. unfold handle_file, emit. keeps. Qed.

Lemma send_image_keeps update : preserves sessions_kept (send_image env update).
Proof. unfold send_image, emit. keeps. Qed.

Lemma download_audio_to_local_keeps file :
  preserves sessions_kept (download_audio_to_local env file).
Proof. unfold download_audio_to_local, emit. keeps. Qed.

Lemma open_rb_keeps path : preserves sessions_kept (open_rb path).
Proof. unfold open_rb. keeps. Qed.

Lemma os_remove_keeps path : preserves sessions_kept (os_remove path).
Proof. unfold os_remove. keeps. Qed.

#[local] Hint Resolve send_image_keeps download_audio_to_local_keeps open_rb_keeps
  os_remove_keeps : keeps.

Lemma audio_keeps update : preserves sessions_kept (audio env update).
Proof. unfold audio, emit. keeps. Qed.

Lemma button_keeps update : preserves sessions_kept (button update).
Proof. unfold button, emit. keeps. Qed.

Lemma get_message_keeps update : preserves sessions_kept (get_message env update).
Proof. unfold get_message, emit. keeps. Qed.

End Sessions.

(** ** Running the handlers *)

(** Unfolds the monad so that a handler runs on its world; the oracle
    answers are then rewritten in from the hypotheses. *)
Ltac run_monad :=
  unfold message_of, user_data_get, bind, emit, modify, lift, attr, global,
    get_world, ret, raise, log, set_fs, set_user, set_manager, set_user_data; simpl.

Section Voice.

Variable env : Env.

(** On the way through, the statement after the block removes the file. *)
Lemma audio_removes_file_on_success update w msg v file bytes u m voice_text answer :
  Telegram.message update = Some msg ->
  Telegram.voice msg = Some v ->
  bot_get_file env (Telegram.voice_file_id v) = Ok file ->
  download_as_bytearray env file = Ok bytes ->
  user w = Some u ->
  user_data w !! u = Some m ->
  audio_transcriptions_create env (openai_client (model m)) (transcription_request (model m) bytes)
    = Ok voice_text ->
  chat_completions_create env (openai_client (model m)) (chat_request (model m) voice_text)
    = Ok answer ->
  fst (audio env update w) = Ok tt /\
  fs (snd (audio env update w)) !! temporary_name env (fs w) ".ogg" = None.
Proof.
  intros Hmsg Hv Hfile Hdl Hu Hm Htr Hchat.
  unfold audio, download_audio_to_local, open_rb, os_remove, transcribe_voice, chat_message.
  run_monad.
  repeat (progress (rewrite ?Hmsg, ?Hv, ?Hfile, ?Hdl, ?Hu, ?Hm, ?Htr, ?Hchat,
                      ?lookup_insert_eq; simpl)).
  split; [ reflexivity | apply lookup_delete_eq ].
Qed.

End Voice.

(** ** The transient audio file *)

(** C1. The claim: after a voice-message call the downloaded audio file
    is gone, also when transcription raises. The code removes the file in
    the statement after the [with] block, which an exception skips: when
    the transcription call raises, the handler raises the same exception
    and the file written for this call is still on disk, with the
    downloaded bytes in it. *)
Theorem audio_leaves_file_when_transcription_fails
    env update w msg v file bytes u m e :
  Telegram.message update = Some msg ->
  Telegram.voice msg = Some v ->
  bot_get_file env (Telegram.voice_file_id v) = Ok file ->
  download_as_bytearray env file = Ok bytes ->
  user w = Some u ->
  user_data w !! u = Some m ->
  audio_transcriptions_create env (openai_client (model m)) (transcription_request (model m) bytes)
    = Raise e ->
  fst (audio env update w) = Raise e /\
  fs (snd (audio env update w)) !! temporary_name env (fs w) ".ogg" = Some bytes.
Proof.
  intros Hmsg Hv Hfile Hdl Hu Hm Htr.
  unfold audio, download_audio_to_local, open_rb, os_remove, transcribe_voice, chat_message.
  run_monad.
  repeat (progress (rewrite ?Hmsg, ?Hv, ?Hfile, ?Hdl, ?Hu, ?Hm, ?Htr,
                      ?lookup_insert_eq; simpl)).
  split; reflexivity.
Qed.

Lemma audio_leaves_file_when_transcription_fails_witness :
  fst (audio Sample.env_transcription_down Sample.voice_message Sample.active)
    = Raise (ServiceError "RateLimitError") /\
  fs (snd (audio Sample.env_transcription_down Sample.voice_message Sample.active))
    !! "/tmp/tmpk3v9.ogg" = Some Sample.voice_bytes.
Proof.
  apply (audio_leaves_file_when_transcription_fails
           Sample.env_transcription_down Sample.voice_message Sample.active
           Sample.voice_msg Sample.the_voice (Sample.file_of "voice-1")
           Sample.voice_bytes 42%Z Sample.the_manager (ServiceError "RateLimitError"));
    vm_compute; reflexivity.
Defined.

(** The same when the chat call raises after a transcription that
    succeeded. *)
Lemma audio_leaves_file_when_chat_fails env update w msg v file bytes u m voice_text e :
  Telegram.message update = Some msg ->
  Telegram.voice msg = Some v ->
  bot_get_file env (Telegram.voice_file_id v) = Ok file ->
  download_as_bytearray env file = Ok bytes ->
  user w = Some u ->
  user_data w !! u = Some m ->
  audio_transcriptions_create env (openai_client (model m))
    (transcription_request (model m) bytes) = Ok voice_text ->
  chat_completions_create env (openai_client (model m)) (chat_request (model m) voice_text)
    = Raise e ->
  fst (audio env update w) = Raise e /\
  fs (snd (audio env update w)) !! temporary_name env (fs w) ".ogg" = Some bytes.
Proof.
  intros Hmsg Hv Hfile Hdl Hu Hm Htr Hchat.
  unfold audio, download_audio_to_local, open_rb, os_remove, transcribe_voice, chat_message.
  run_monad.
  repeat (progress (rewrite ?Hmsg, ?Hv, ?Hfile, ?Hdl, ?Hu, ?Hm, ?Htr, ?Hchat,
                      ?lookup_insert_eq; simpl)).
  split; reflexivity.
Qed.

(** ** Key entry *)

Lemma startswith_sk_nonempty (t : string) :
  Py.startswith t "sk-" = true -> String.eqb t EmptyString = false.
Proof. destruct t; [ discriminate | reflexivity ]. Qed.

(** [check_user] with a key, for a user that has no session, every send
    delivered: when the validation call raises, the exception reaches the
    caller and the world is the one before plus the validation call in the
    trace (no entry in [user_data], no echo, no greeting); when it returns,
    the session is stored under the current user id after the echo and the
    greeting. *)
Theorem check_user_atomic env update w u d :
  user w = Some u ->
  user_data w !! u = None ->
  d <> EmptyString ->
  match models_list env d with
  | Raise e =>
      check_user env update (Some d) w = (Raise e, log (call_models_list d) w)
  | Ok _ =>
      forall msg n,
        Telegram.message update = Some msg ->
        user_name w = Some n ->
        check_user env update (Some d) w = (Ok tt, world_after_key u n d w)
  end.
Proof.
  intros Hu Hnone Hd.
  assert (Heq : String.eqb d EmptyString = false) by now apply String.eqb_neq.
  unfold check_user, OpenAIModelManager_init, _validate_api_key, check_api_key, hello,
    world_after_key, new_manager.
  run_monad. rewrite Hu, Hnone, Heq. simpl.
  destruct (models_list env d) as [[]|e]; simpl; [ | rewrite ?Hu; reflexivity ].
  intros msg n Hmsg Hn. rewrite Hmsg. simpl. rewrite Hn. simpl. rewrite ?Hu. reflexivity.
Qed.

Lemma check_user_atomic_witness :
  check_user Sample.env (Sample.text_message "sk-wrong") (Some "sk-wrong") Sample.awaiting_key
  = (Raise (ServiceError "AuthenticationError"),
     log (call_models_list "sk-wrong") Sample.awaiting_key) /\
  check_user Sample.env (Sample.text_message "sk-valid") (Some "sk-valid") Sample.awaiting_key
  = (Ok tt, world_after_key 42 "Alice" "sk-valid" Sample.awaiting_key).
Proof.
  split.
  - apply (check_user_atomic Sample.env (Sample.text_message "sk-wrong")
             Sample.awaiting_key 42%Z "sk-wrong");
      [ reflexivity | vm_compute; reflexivity | discriminate ].
  - exact (check_user_atomic Sample.env (Sample.text_message "sk-valid")
             Sample.awaiting_key 42%Z "sk-valid"
             eq_refl eq_refl ltac:(discriminate)
             (Sample.text_msg "sk-valid") "Alice" eq_refl eq_refl).
Defined.

(** The session a valid key leaves behind. *)
Example valid_key_is_stored :
  user_data (world_after_key 42 "Alice" "sk-valid" Sample.awaiting_key) !! 42%Z
  = Some (new_manager "sk-valid").
Proof. vm_compute. reflexivity. Qed.

(** A key with the letters of "draw" in it, evaluated. In the state that
    waits for a key, the text goes to image generation: nothing is deleted
    and no validation is attempted. With a session stored, the same text
    is sent to the image model as a prompt. *)
Lemma sk_prefix_key_entry_counterexample :
  Py.startswith "sk-proj-9dRaWx2" "sk-" = true /\
  get_message Sample.env (Sample.text_message "sk-proj-9dRaWx2") Sample.awaiting_key
    = (Raise (KeyError 42), Sample.awaiting_key) /\
  trace (snd (get_message Sample.env (Sample.text_message "sk-proj-9dRaWx2") Sample.active))
    = [ call_image "sk-valid"
          {| image_prompt := Some "sk-proj-9dRaWx2"; image_model := "dall-e-3";
             image_size := "1024x1024"; image_quality := "standard"; image_n := 1;
             image_response_format := "url" |};
        reply_photo "https://images.example/1.png" "A red apple on a table" ] /\
  ~ key_entry_as_stated.
Proof.
  split; [ reflexivity | ].
  split; [ vm_compute; reflexivity | ].
  split; [ vm_compute; reflexivity | ].
  intros H.
  destruct (H Sample.env (Sample.text_message "sk-proj-9dRaWx2") Sample.awaiting_key
              (Sample.text_msg "sk-proj-9dRaWx2") "sk-proj-9dRaWx2"
              eq_refl eq_refl eq_refl) as [Hdel _].
  vm_compute in Hdel. exact Hdel.
Qed.

(** Where the key entry is reached. A text that is not a reply, begins
    with "sk-" and does not contain "draw" in any letter case, from a bound
    user without a session: the message is deleted from the chat first and
    the validation call with that text is the next thing that happens. *)
Theorem sk_prefix_key_entry env update w msg t u :
  Telegram.message update = Some msg ->
  Telegram.reply_to_message msg = None ->
  Telegram.text msg = Some t ->
  Py.startswith t "sk-" = true ->
  Py.contains "draw" (Py.lower t) = false ->
  user w = Some u ->
  user_data w !! u = None ->
  exists rest,
    trace (snd (get_message env update w))
    = trace w ++ message_delete (Telegram.message_id msg) :: call_models_list t :: rest.
Proof.
  intros Hmsg Hreply Htext Hsk Hdraw Hu Hnone.
  pose proof (startswith_sk_nonempty t Hsk) as Hne.
  unfold get_message, check_user, OpenAIModelManager_init, _validate_api_key,
    check_api_key, hello.
  run_monad.
  repeat (progress (rewrite ?Hmsg, ?Hreply, ?Htext, ?Hdraw, ?Hsk, ?Hu, ?Hnone, ?Hne; simpl)).
  destruct (models_list env t) as [[]|e]; simpl.
  - destruct (user_name w); simpl; rewrite ?Hu; simpl;
      eexists; rewrite <- !app_assoc; simpl; reflexivity.
  - eexists. rewrite <- !app_assoc. simpl. reflexivity.
Qed.

Lemma sk_prefix_key_entry_witness :
  exists rest,
    trace (snd (get_message Sample.env (Sample.text_message "sk-valid") Sample.awaiting_key))
    = trace Sample.awaiting_key ++ message_delete 7 :: call_models_list "sk-valid" :: rest.
Proof.
  apply (sk_prefix_key_entry Sample.env (Sample.text_message "sk-valid")
           Sample.awaiting_key (Sample.text_msg "sk-valid") "sk-valid" 42%Z);
    vm_compute; reflexivity.
Defined.

(** ** Documents *)

(** C4, amended. A document message of a user with a session, once the
    file object is fetched: a declared type "text/plain" downloads the content and
    hands it to [rag_with_documents_from_text]; "application/pdf" hands the
    file path to [rag_with_documents]; for any other declared type (or
    none) the handler returns after one reply with the fixed text, and the
    world differs from the one before only by the file lookup and that
    reply in the trace: no model call, no change of globals, sessions or
    files. *)
Theorem handle_file_dispatch env update w msg doc file u m :
  Telegram.message update = Some msg ->
  Telegram.document msg = Some doc ->
  bot_get_file env (Telegram.file_id doc) = Ok file ->
  user w = Some u ->
  user_data w !! u = Some m ->
  let caption := caption_or_default (Telegram.caption msg) in
  let w1 := log (call_get_file (Telegram.file_id doc)) w in
  (Telegram.mime_type doc = Some "text/plain" ->
   forall content,
     requests_get env (Telegram.file_path file) = Ok content ->
     handle_file env update w
     = (answer <- rag_with_documents_from_text env (lang_model m) content caption ;;
        emit (reply_text answer))
         (log (call_requests_get (Telegram.file_path file)) w1)) /\
  (Telegram.mime_type doc = Some "application/pdf" ->
   handle_file env update w
   = (answer <- rag_with_documents env (lang_model m) (Telegram.file_path file) caption ;;
      emit (reply_text answer)) w1) /\
  (Telegram.mime_type doc <> Some "text/plain" ->
   Telegram.mime_type doc <> Some "application/pdf" ->
   handle_file env update w
   = (Ok tt, log (reply_text "Please send the file in PDF or TXT format") w1)).
Proof.
  intros Hmsg Hdoc Hfile Hu Hm caption w1. subst caption w1.
  unfold handle_file. run_monad. rewrite Hmsg. simpl. rewrite Hdoc. simpl.
  rewrite Hfile. simpl.
  split; [ | split ].
  - intros Hmime content Hget. rewrite Hmime. simpl. rewrite Hget. simpl.
    rewrite Hu. simpl. rewrite Hm. reflexivity.
  - intros Hmime. rewrite Hmime. simpl. rewrite Hu. simpl. rewrite Hm. reflexivity.
  - intros Hplain Hpdf.
    destruct (decide (Telegram.mime_type doc = Some "text/plain")); [ contradiction | ].
    destruct (decide (Telegram.mime_type doc = Some "application/pdf")); [ contradiction | ].
    reflexivity.
Qed.

Lemma handle_file_dispatch_witness :
  handle_file Sample.env
    (Sample.document_message
       (Some "application/vnd.openxmlformats-officedocument.wordprocessingml.document") None)
    Sample.active
  = (Ok tt,
     log (reply_text "Please send the file in PDF or TXT format")
       (log (call_get_file "doc-1") Sample.active)).
Proof.
  apply (handle_file_dispatch Sample.env
           (Sample.document_message
              (Some "application/vnd.openxmlformats-officedocument.wordprocessingml.document") None)
           Sample.active
           (Sample.document_msg
              (Some "application/vnd.openxmlformats-officedocument.wordprocessingml.document") None)
           (Sample.the_document
              (Some "application/vnd.openxmlformats-officedocument.wordprocessingml.document"))
           (Sample.file_of "doc-1") 42%Z Sample.the_manager);
    first [ discriminate | vm_compute; reflexivity ].
Defined.

(** C10. A document message without a caption: the question both
    retrieval methods receive is the fixed text "Summarize this file". *)
Theorem handle_file_default_caption env update w msg doc file u m :
  Telegram.message update = Some msg ->
  Telegram.caption msg = None ->
  Telegram.document msg = Some doc ->
  bot_get_file env (Telegram.file_id doc) = Ok file ->
  user w = Some u ->
  user_data w !! u = Some m ->
  (Telegram.mime_type doc = Some "text/plain" ->
   forall content,
     requests_get env (Telegram.file_path file) = Ok content ->
     handle_file env update w
     = (answer <- rag_with_documents_from_text env (lang_model m) content
                    "Summarize this file" ;;
        emit (reply_text answer))
         (log (call_requests_get (Telegram.file_path file))
            (log (call_get_file (Telegram.file_id doc)) w))) /\
  (Telegram.mime_type doc = Some "application/pdf" ->
   handle_file env update w
   = (answer <- rag_with_documents env (lang_model m) (Telegram.file_path file)
                  "Summarize this file" ;;
      emit (reply_text answer))
       (log (call_get_file (Telegram.file_id doc)) w)).
Proof.
  intros Hmsg Hcap Hdoc Hfile Hu Hm.
  unfold handle_file. run_monad. rewrite Hmsg. simpl. rewrite Hdoc. simpl.
  rewrite Hfile, Hcap. simpl.
  split.
  - intros Hmime content Hget. rewrite Hmime. simpl. rewrite Hget. simpl.
    rewrite Hu. simpl. rewrite Hm. reflexivity.
  - intros Hmime. rewrite Hmime. simpl. rewrite Hu. simpl. rewrite Hm. reflexivity.
Qed.

Lemma handle_file_default_caption_witness :
  handle_file Sample.env (Sample.document_message (Some "text/plain") None) Sample.active
  = (answer <- rag_with_documents_from_text Sample.env (lang_model Sample.the_manager)
                 "the text of the file" "Summarize this file" ;;
     emit (reply_text answer))
      (log (call_requests_get "https://files.example/doc-1")
         (log (call_get_file "doc-1") Sample.active)).
Proof.
  apply (proj1 (handle_file_default_caption Sample.env
                  (Sample.document_message (Some "text/plain") None) Sample.active
                  (Sample.document_msg (Some "text/plain") None)
                  (Sample.the_document (Some "text/plain"))
                  (Sample.file_of "doc-1") 42%Z Sample.the_manager
                  eq_refl eq_refl eq_refl eq_refl eq_refl eq_refl));
    reflexivity.
Defined.

(** ** The retrieval prompt *)

Lemma append_assoc (a b c : string) : (a +:+ b) +:+ c = a +:+ (b +:+ c).
Proof.
  induction a as [|x a IH]; [ reflexivity | ].
  change (String x ((a +:+ b) +:+ c) = String x (a +:+ (b +:+ c))).
  now rewrite IH.
Qed.

Lemma append_empty_r (a : string) : a +:+ EmptyString = a.
Proof.
  induction a as [|x a IH]; [ reflexivity | ].
  change (String x (a +:+ EmptyString) = String x a).
  now rewrite IH.
Qed.

Lemma context_data_from (docs : list Document) (acc : string) :
  fold_left (fun acc document => acc +:+ page_content document) docs acc
  = acc +:+ rank_order_context docs.
Proof.
  revert acc. induction docs as [|d docs IH]; intros acc; simpl.
  - now rewrite append_empty_r.
  - rewrite IH. apply append_assoc.
Qed.

(** The loop over the retrieved documents joins their text in order. *)
Lemma context_data_rank_order (docs : list Document) :
  context_data docs = rank_order_context docs.
Proof. unfold context_data. now rewrite context_data_from. Qed.

Lemma chat_prompts_log (e : Event) (w : World) :
  chat_prompts (trace (log e w))
  = chat_prompts (trace w) ++ match chat_prompt_of e with Some p => [p] | None => [] end.
Proof.
  unfold chat_prompts. simpl. rewrite omap_app. simpl.
  now destruct (chat_prompt_of e).
Qed.

(** What one call of [retrieve_and_answer] adds to the prompts sent. *)
Lemma retrieve_and_answer_prompt env self splitted question w docs :
  get_relevant_documents env (embed_model self) splitted question = Ok docs ->
  chat_prompts (trace (snd (retrieve_and_answer env self splitted question w)))
  = chat_prompts (trace w) ++ [final_prompt question (rank_order_context docs)].
Proof.
  intros Hdocs. unfold retrieve_and_answer, chat_message.
  unfold bind, emit, modify, lift. simpl. rewrite Hdocs. simpl.
  rewrite context_data_rank_order.
  unfold chat_prompts. rewrite !omap_app. simpl. now rewrite app_nil_r.
Qed.

(** C5, counterexample. For the question "Q" and one retrieved chunk
    "CTX" the prompt sent has a quote in front, eight spaces in front of
    its second and third line, and a line break and eight spaces after the
    closing quote: it is the template of the spec under neither reading. *)
Lemma rag_prompt_counterexample :
  chat_prompts
    (trace (snd (rag_with_documents_from_text Sample.env (lang_model Sample.the_manager)
                   "CTX" "Q" Sample.active)))
  = [ Py.dquote +:+ "Here is your question: Q" +:+ Py.nl +:+
      "        We have the following information to answer it: CTX." +:+ Py.nl +:+
      "        Use only the information provided here to answer the question. Do not go beyond this."
      +:+ Py.dquote +:+ Py.nl +:+ "        " ] /\
  ~ prompt_as_stated true /\
  ~ prompt_as_stated false.
Proof.
  split; [ vm_compute; reflexivity | ].
  split; intros H;
    specialize (H Sample.env (lang_model Sample.the_manager) "CTX" "Q" Sample.active
                  [ {| page_content := "CTX" |} ] eq_refl);
    vm_compute in H; discriminate H.
Qed.

(** C5, amended. The prompt sent to the chat model by both retrieval
    methods is [final_prompt]: a quote, the question line, the context line
    and the instruction line (the last two indented by eight spaces), a
    quote, a line break and eight spaces; its context is the text of the
    retrieved chunks in retrieval order with nothing between them. *)
Theorem rag_prompt_sent env self question w docs :
  (forall text_content,
     get_relevant_documents env (embed_model self)
       (split_documents env 1000 0 [ {| page_content := text_content |} ]) question = Ok docs ->
     chat_prompts (trace (snd (rag_with_documents_from_text env self text_content question w)))
     = chat_prompts (trace w) ++ [final_prompt question (rank_order_context docs)]) /\
  (forall filepath raw_documents,
     pdf_load env filepath = Ok raw_documents ->
     get_relevant_documents env (embed_model self)
       (split_documents env 1000 0 raw_documents) question = Ok docs ->
     chat_prompts (trace (snd (rag_with_documents env self filepath question w)))
     = chat_prompts (trace w) ++ [final_prompt question (rank_order_context docs)]).
Proof.
  split.
  - intros text_content Hdocs. unfold rag_with_documents_from_text.
    now apply retrieve_and_answer_prompt.
  - intros filepath raw Hload Hdocs. unfold rag_with_documents.
    unfold bind at 1. unfold emit, modify. unfold bind at 1. unfold lift at 1.
    rewrite Hload.
    rewrite (retrieve_and_answer_prompt _ _ _ _ _ docs Hdocs).
    rewrite chat_prompts_log. simpl. now rewrite app_nil_r.
Qed.

Lemma rag_prompt_sent_witness :
  chat_prompts
    (trace (snd (rag_with_documents Sample.env (lang_model Sample.the_manager)
                   "https://files.example/doc-1" "What is on page two?" Sample.active)))
  = chat_prompts (trace Sample.active)
    ++ [final_prompt "What is on page two?" "page onepage two"].
Proof.
  apply (proj2 (rag_prompt_sent Sample.env (lang_model Sample.the_manager)
                  "What is on page two?" Sample.active
                  [ {| page_content := "page one" |}; {| page_content := "page two" |} ])
           "https://files.example/doc-1"
           [ {| page_content := "page one" |}; {| page_content := "page two" |} ]);
    reflexivity.
Defined.

(** ** Replies *)

(** The request [chat_message] sends for a prompt. *)
Lemma chat_message_run env self prompt w :
  chat_message env self prompt w
  = (chat_completions_create env (openai_client self) (chat_request self prompt),
     log (call_chat (openai_client self) (chat_request self prompt)) w).
Proof. reflexivity. Qed.

(** The chat branch of a reply, for a user with a session. *)
Theorem reply_routes_to_chat env update w msg replied u m :
  Telegram.message update = Some msg ->
  Telegram.reply_to_message msg = Some replied ->
  user w = Some u ->
  user_data w !! u = Some m ->
  let prompt :=
    Py.format_opt replied +:+ " in addition to " +:+ Py.format_opt (Telegram.text msg) in
  let w1 := log (call_chat (openai_client (model m)) (chat_request (model m) prompt)) w in
  get_message env update w
  = match chat_completions_create env (openai_client (model m))
            (chat_request (model m) prompt) with
    | Ok send_message => (Ok tt, log (reply_markdown send_message) w1)
    | Raise e => (Raise e, w1)
    end.
Proof.
  intros Hmsg Hreply Hu Hm prompt w1. subst prompt w1.
  unfold get_message, message_of. rewrite Hmsg. simpl. rewrite bind_ret_l, Hreply.
  unfold bind at 1. rewrite (user_data_get_run w u m Hu Hm).
  unfold bind. rewrite chat_message_run.
  now destruct (chat_completions_create _ _ _).
Qed.

Lemma reply_routes_to_chat_witness :
  get_message Sample.env (Sample.reply_message (Some "a red apple") "sk-draw it again")
    Sample.active
  = (Ok tt,
     log (reply_markdown "echo: a red apple in addition to sk-draw it again")
       (log (call_chat "sk-valid"
               (chat_request (OpenAIHelper_init "sk-valid")
                  "a red apple in addition to sk-draw it again"))
          Sample.active)).
Proof.
  exact (reply_routes_to_chat Sample.env
           (Sample.reply_message (Some "a red apple") "sk-draw it again") Sample.active
           (Sample.reply_msg (Some "a red apple") "sk-draw it again")
           (Some "a red apple") 42%Z Sample.the_manager
           eq_refl eq_refl eq_refl eq_refl).
Defined.

(** ** Validation is reached through the prefix only *)

(** C8. A text message that does not begin with "sk-" never reaches the
    validation call: in every world, and for every way the framework
    matches updates to handlers, the validation calls in the trace after
    [get_message], and after the whole dispatch with its error handler, are
    the ones that were there before. *)
Theorem no_validation_without_sk_prefix env fw update w :
  key_shaped update = false ->
  validation_calls (trace (snd (get_message env update w))) = validation_calls (trace w) /\
  validation_calls (trace (process_update env fw update w)) = validation_calls (trace w).
Proof.
  intros Hkey. split.
  - apply (get_message_quiet env update Hkey w).
  - apply (process_update_quiet env fw update w Hkey).
Qed.

Lemma no_validation_without_sk_prefix_witness :
  validation_calls
    (trace (snd (get_message Sample.env (Sample.text_message "my key is sk-valid")
                   Sample.awaiting_key)))
  = validation_calls (trace Sample.awaiting_key) /\
  validation_calls
    (trace (process_update Sample.env Ptb.framework (Sample.text_message "my key is sk-valid")
              Sample.awaiting_key))
  = validation_calls (trace Sample.awaiting_key).
Proof.
  apply (no_validation_without_sk_prefix Sample.env Ptb.framework
           (Sample.text_message "my key is sk-valid") Sample.awaiting_key).
  reflexivity.
Defined.

(** ** The forget-key command *)

(** What [off] does when it runs: the session of the current user is
    removed and the user is told so. *)
Lemma off_removes_session update w msg u m :
  Telegram.message update = Some msg ->
  user w = Some u ->
  user_data w !! u = Some m ->
  off update w
  = (Ok tt, log (reply_text "Your API Key deleted")
              (set_user_data (delete u (user_data w)) w)).
Proof.
  intros Hmsg Hu Hm. unfold off. run_monad. rewrite Hu. simpl. rewrite Hm. simpl.
  rewrite Hmsg. simpl. rewrite ?Hu. reflexivity.
Qed.

(** C6. The claim: the forget-key command of an active user, coming in
    through the dispatch of updates, removes the session. [main.py]
    neither imports nor registers [off]: whatever the update and however
    the framework matches updates to the registered handlers, a stored
    session is still stored, unchanged, after the update is processed. *)
Theorem process_update_keeps_session env fw update w u m :
  user_data w !! u = Some m ->
  user_data (process_update env fw update w) !! u = Some m.
Proof.
  intros Hm. unfold process_update, error_handler.
  destruct (dispatch (configure_handlers env fw) update) as [callback|] eqn:Hd;
    [ | exact Hm ].
  assert (Hcb : preserves sessions_kept (callback update)).
  { apply dispatch_configure_handlers in Hd.
    destruct Hd as [-> | [-> | [-> | [-> | ->]]]];
      auto using button_keeps, start_keeps, audio_keeps, handle_file_keeps, get_message_keeps. }
  specialize (Hcb w).
  destruct (callback update w) as [[[]|e] w1]; simpl in Hcb; [ now apply Hcb | ].
  apply (error_message_keeps env update w1), Hcb, Hm.
Qed.

Lemma process_update_keeps_session_witness :
  user_data (process_update Sample.env Ptb.framework (Sample.text_message "/off") Sample.active)
    !! 42%Z = Some Sample.the_manager.
Proof.
  apply (process_update_keeps_session Sample.env Ptb.framework
           (Sample.text_message "/off") Sample.active 42%Z Sample.the_manager).
  vm_compute. reflexivity.
Defined.

(** The command text finds no handler: nothing is sent and nothing
    changes. *)
Example off_command_not_dispatched :
  dispatch (configure_handlers Sample.env Ptb.framework) (Sample.text_message "/off") = None /\
  process_update Sample.env Ptb.framework (Sample.text_message "/off") Sample.active
  = Sample.active.
Proof. split; reflexivity. Qed.

(** ** The chunking step *)

(** What the source fixes about chunking: the text goes to the splitter of
    the library as one document, with chunk size 1000 and overlap 0, and
    the chunks that come back are what retrieval runs on. *)
Lemma chunking_step_input env self text_content prompt w :
  exists rest,
    trace (snd (rag_with_documents_from_text env self text_content prompt w))
    = trace w
      ++ call_retrieve (embed_model self)
           (split_documents env 1000 0 [ {| page_content := text_content |} ]) prompt
         :: rest.
Proof.
  unfold rag_with_documents_from_text, retrieve_and_answer, chat_message.
  unfold bind, emit, modify, lift. simpl.
  destruct (get_relevant_documents _ _ _ _); simpl.
  - eexists. rewrite <- app_assoc. reflexivity.
  - eexists. reflexivity.
Qed.

(** ** Checks on concrete inputs *)

Example start_message_value :
  start_message
  = Py.nl +:+ "Here are the skills I can offer you," +:+ Py.nl +:+ Py.nl +:+
    "-> text chat" +:+ Py.nl +:+
    "-> have voice conversations" +:+ Py.nl +:+
    "-> create images based on your requests." +:+ Py.nl +:+
    "-> analyze and review documents you provide." +:+ Py.nl +:+ Py.nl +:+
    "To perform these tasks, you will need to provide your OpenAI API key." +:+ Py.nl +:+
    "Note: Please do not share your personal information and use a test API key. If you want to delete API key, you can use /off code."
    +:+ Py.nl.
Proof. vm_compute. reflexivity. Qed.

Example key_echo_masks_the_key :
  key_echo "sk-abc123xyz" = "Key : sk-*************xyz success".
Proof. vm_compute. reflexivity. Qed.

Example key_echo_short_key : key_echo "sk" = "Key : sk*************sk success".
Proof. vm_compute. reflexivity. Qed.

Example draw_is_found_in_any_case :
  Py.contains "draw" (Py.lower "Please DRAW a red apple") = true.
Proof. vm_compute. reflexivity. Qed.

(** Before any [/start] the global [user] is unbound. *)
Example text_before_start :
  get_message Sample.env (Sample.text_message "hello") Sample.fresh
  = (Raise (NameError "user"), Sample.fresh).
Proof. vm_compute. reflexivity. Qed.

(** The whole key entry, through the dispatch. *)
Example valid_key_through_dispatch :
  process_update Sample.env Ptb.framework (Sample.text_message "sk-valid") Sample.awaiting_key
  = world_after_key 42 "Alice" "sk-valid"
      (log (message_delete 7) Sample.awaiting_key).
Proof. vm_compute. reflexivity. Qed.

(** A rejected key: the error handler finds no session and greets again. *)
Example wrong_key_through_dispatch :
  let w := process_update Sample.env Ptb.framework (Sample.text_message "sk-wrong")
             Sample.awaiting_key in
  user_data w = ∅ /\
  trace w
  = [ message_delete 7; call_models_list "sk-wrong";
      reply_markdown "Hello Alice, I'm TelegrativeAI 🤖🙂";
      reply_animation start_animation;
      time_sleep 1;
      reply_markdown start_message;
      time_sleep 1;
      reply_text_markup "Would you like to continue?" [[("Yes", "yes")]; [("No", "no")]] ].
Proof. split; vm_compute; reflexivity. Qed.

(** A voice note with every service up: answered, and the file removed. *)
Example voice_note_answered :
  let r := audio Sample.env Sample.voice_message Sample.active in
  fst r = Ok tt /\ fs (snd r) = ∅.
Proof. split; vm_compute; reflexivity. Qed.

(** * Further properties of the handlers *)

(** ** Forgetting and entering a key *)

(** X1. [off] for a user with a session: it returns, that user has no
    session afterwards, every other id keeps what it had, and the one
    thing sent is the confirmation. *)
Theorem off_forgets_current_user update w msg u m :
  Telegram.message update = Some msg ->
  user w = Some u ->
  user_data w !! u = Some m ->
  fst (off update w) = Ok tt /\
  user_data (snd (off update w)) !! u = None /\
  (forall u', u' <> u -> user_data (snd (off update w)) !! u' = user_data w !! u') /\
  trace (snd (off update w)) = trace w ++ [reply_text "Your API Key deleted"].
Proof.
  intros Hmsg Hu Hm. rewrite (off_removes_session update w msg u m Hmsg Hu Hm). simpl.
  split; [ reflexivity | ].
  split; [ apply lookup_delete_eq | ].
  split; [ | reflexivity ].
  intros u' Hne. now apply lookup_delete_ne.
Qed.

Lemma off_forgets_current_user_witness :
  fst (off (Sample.text_message "/off") Sample.active) = Ok tt /\
  user_data (snd (off (Sample.text_message "/off") Sample.active)) !! 42%Z = None /\
  (forall u', u' <> 42%Z ->
     user_data (snd (off (Sample.text_message "/off") Sample.active)) !! u'
     = user_data Sample.active !! u') /\
  trace (snd (off (Sample.text_message "/off") Sample.active))
  = trace Sample.active ++ [reply_text "Your API Key deleted"].
Proof.
  apply (off_forgets_current_user (Sample.text_message "/off") Sample.active
           (Sample.text_msg "/off") 42%Z Sample.the_manager);
    vm_compute; reflexivity.
Defined.

(** A second [off] right after a first one is silent. *)
Theorem off_twice_is_silent update w msg u m :
  Telegram.message update = Some msg ->
  user w = Some u ->
  user_data w !! u = Some m ->
  off update (snd (off update w)) = (Ok tt, snd (off update w)).
Proof.
  intros Hmsg Hu Hm. rewrite (off_removes_session update w msg u m Hmsg Hu Hm). simpl.
  unfold off. run_monad. rewrite Hu. simpl. now rewrite lookup_delete_eq.
Qed.

Lemma off_twice_is_silent_witness :
  off (Sample.text_message "/off") (snd (off (Sample.text_message "/off") Sample.active))
  = (Ok tt, snd (off (Sample.text_message "/off") Sample.active)).
Proof.
  apply (off_twice_is_silent (Sample.text_message "/off") Sample.active
           (Sample.text_msg "/off") 42%Z Sample.the_manager);
    vm_compute; reflexivity.
Defined.

(** [check_user] with a key that passes, run to the end. *)
Lemma check_user_valid_key_run env update w msg n u d :
  Telegram.message update = Some msg ->
  user w = Some u ->
  user_name w = Some n ->
  user_data w !! u = None ->
  String.eqb d EmptyString = false ->
  models_list env d = Ok tt ->
  check_user env update (Some d) w = (Ok tt, world_after_key u n d w).
Proof.
  intros Hmsg Hu Hn Hnone Hd Hok.
  unfold check_user, OpenAIModelManager_init, _validate_api_key, check_api_key, hello,
    world_after_key, new_manager.
  run_monad.
  repeat (progress (rewrite ?Hu, ?Hnone, ?Hd, ?Hok, ?Hmsg, ?Hn; simpl)).
  reflexivity.
Qed.


(** X3. Entering a valid key and then running [off] leaves the session
    map as it was before the key. *)
Theorem off_undoes_key_entry env update w msg n u d :
  Telegram.message update = Some msg ->
  user w = Some u ->
  user_name w = Some n ->
  user_data w !! u = None ->
  d <> EmptyString ->
  models_list env d = Ok tt ->
  user_data (snd (off update (snd (check_user env update (Some d) w)))) = user_data w.
Proof.
  intros Hmsg Hu Hn Hnone Hd Hok.
  assert (Heq : String.eqb d EmptyString = false) by now apply String.eqb_neq.
  rewrite (check_user_valid_key_run env update w msg n u d Hmsg Hu Hn Hnone Heq Hok). simpl.
  rewrite (off_removes_session update (world_after_key u n d w) msg u (new_manager d));
    [ | exact Hmsg | exact Hu | apply lookup_insert_eq ].
  simpl. rewrite delete_insert_eq. now apply delete_id.
Qed.

Lemma off_undoes_key_entry_witness :
  user_data
    (snd (off (Sample.text_message "sk-valid")
            (snd (check_user Sample.env (Sample.text_message "sk-valid") (Some "sk-valid")
                    Sample.awaiting_key))))
  = user_data Sample.awaiting_key.
Proof.
  apply (off_undoes_key_entry Sample.env (Sample.text_message "sk-valid")
           Sample.awaiting_key (Sample.text_msg "sk-valid") "Alice" 42%Z "sk-valid");
    first [ discriminate | vm_compute; reflexivity ].
Defined.

(** X4. A key typed by a bound user who has no session, when validation
    passes and the sends are delivered: the trace grows by the deletion of
    the message, the validation call, the masked key and the greeting, in
    that order; the global [manager] is the manager built from the whole
    text, and that manager is stored under the current user id. *)
Theorem key_entry_stores_session env update w msg t u n :
  Telegram.message update = Some msg ->
  Telegram.reply_to_message msg = None ->
  Telegram.text msg = Some t ->
  Py.startswith t "sk-" = true ->
  Py.contains "draw" (Py.lower t) = false ->
  user w = Some u ->
  user_name w = Some n ->
  user_data w !! u = None ->
  models_list env t = Ok tt ->
  get_message env update w
  = (Ok tt, world_after_key u n t (log (message_delete (Telegram.message_id msg)) w)).
Proof.
  intros Hmsg Hreply Htext Hsk Hdraw Hu Hn Hnone Hok.
  pose proof (startswith_sk_nonempty t Hsk) as Hne.
  unfold get_message, message_of. rewrite Hmsg. simpl. rewrite bind_ret_l, Hreply, Htext.
  simpl. rewrite bind_ret_l, Hdraw, Hsk.
  unfold bind at 1. unfold emit, modify.
  now apply (check_user_valid_key_run env update _ msg n u t).
Qed.

Lemma key_entry_stores_session_witness :
  get_message Sample.env (Sample.text_message "sk-valid") Sample.awaiting_key
  = (Ok tt, world_after_key 42 "Alice" "sk-valid" (log (message_delete 7) Sample.awaiting_key)).
Proof.
  apply (key_entry_stores_session Sample.env (Sample.text_message "sk-valid")
           Sample.awaiting_key (Sample.text_msg "sk-valid") "sk-valid" 42%Z "Alice");
    vm_compute; reflexivity.
Defined.




(** [error_message] for a user with a session. *)
Lemma error_message_with_session env update w msg u m :
  Telegram.message update = Some msg ->
  user w = Some u ->
  user_data w !! u = Some m ->
  error_message env update w
  = (Ok tt, log (reply_text "An error occurred please try again later") w).
Proof.
  intros Hmsg Hu Hm. unfold error_message. run_monad.
  rewrite Hu. simpl. rewrite Hm, Hmsg. simpl. rewrite ?Hu. reflexivity.
Qed.




(** ** Text messages of a user with a session *)



(** X8. When the chat call behind a text raises, the error handler tells
    the user so with the fixed text, and the session stays stored. *)
Theorem chat_failure_is_reported env update w msg t u m e :
  Telegram.message update = Some msg ->
  Telegram.reply_to_message msg = None ->
  Telegram.text msg = Some t ->
  Py.contains "draw" (Py.lower t) = false ->
  Py.startswith t "sk-" = false ->
  user w = Some u ->
  user_data w !! u = Some m ->
  chat_completions_create env (openai_client (model m)) (chat_request (model m) t) = Raise e ->
  let w1 := log (call_chat (openai_client (model m)) (chat_request (model m) t)) w in
  get_message env update w = (Raise e, w1) /\
  error_message env update w1
  = (Ok tt, log (reply_text "An error occurred please try again later") w1) /\
  user_data w1 !! u = Some m.
Proof.
  intros Hmsg Hreply Htext Hdraw Hsk Hu Hm Hfail w1. subst w1.
  split; [ | split; [ | exact Hm ] ].
  - unfold get_message, message_of. rewrite Hmsg. simpl. rewrite bind_ret_l, Hreply, Htext.
    simpl. rewrite bind_ret_l, Hdraw, Hsk.
    unfold bind at 1. rewrite (user_data_get_run w u m Hu Hm).
    unfold bind. now rewrite chat_message_run, Hfail.
  - now apply (error_message_with_session env update _ msg u m).
Qed.

Lemma chat_failure_is_reported_witness :
  get_message Outage.chat_down (Sample.text_message "hi") Sample.active
  = (Raise (ServiceError "APITimeoutError"),
     log (call_chat "sk-valid" (chat_request (OpenAIHelper_init "sk-valid") "hi"))
       Sample.active) /\
  error_message Outage.chat_down (Sample.text_message "hi")
    (log (call_chat "sk-valid" (chat_request (OpenAIHelper_init "sk-valid") "hi"))
       Sample.active)
  = (Ok tt,
     log (reply_text "An error occurred please try again later")
       (log (call_chat "sk-valid" (chat_request (OpenAIHelper_init "sk-valid") "hi"))
          Sample.active)) /\
  user_data
    (log (call_chat "sk-valid" (chat_request (OpenAIHelper_init "sk-valid") "hi"))
       Sample.active) !! 42%Z
  = Some Sample.the_manager.
Proof.
  apply (chat_failure_is_reported Outage.chat_down (Sample.text_message "hi") Sample.active
           (Sample.text_msg "hi") "hi" 42%Z Sample.the_manager
           (ServiceError "APITimeoutError"));
    vm_compute; reflexivity.
Defined.

(** X9. A text with "draw" in it, in any letter case, that is not a
    reply: the image model gets the whole text as the prompt of one
    1024x1024 image, and the answer is a photo by its URL with the revised
    prompt as caption. This holds also when the text begins with "sk-". *)
Theorem draw_goes_to_image env update w msg t u m :
  Telegram.message update = Some msg ->
  Telegram.reply_to_message msg = None ->
  Telegram.text msg = Some t ->
  Py.contains "draw" (Py.lower t) = true ->
  user w = Some u ->
  user_data w !! u = Some m ->
  let w1 := log (call_image (openai_client (model m)) (image_request (model m) (Some t))) w in
  get_message env update w
  = match images_generate env (openai_client (model m)) (image_request (model m) (Some t)) with
    | Ok (image, revised_prompt) => (Ok tt, log (reply_photo image revised_prompt) w1)
    | Raise e => (Raise e, w1)
    end.
Proof.
  intros Hmsg Hreply Htext Hdraw Hu Hm w1. subst w1.
  unfold get_message, message_of. rewrite Hmsg. simpl. rewrite bind_ret_l, Hreply, Htext.
  simpl. rewrite bind_ret_l, Hdraw.
  unfold send_image, message_of.
  unfold bind at 1. rewrite (user_data_get_run w u m Hu Hm).
  rewrite Hmsg. simpl. rewrite bind_ret_l, Htext.
  unfold create_image, image_request, bind, emit, modify, lift. simpl.
  match goal with
  | |- context [images_generate ?a ?b ?c] => destruct (images_generate a b c) as [[image revised]|e']
  end; reflexivity.
Qed.

Lemma draw_goes_to_image_witness :
  get_message Sample.env (Sample.text_message "Draw a red apple") Sample.active
  = (Ok tt,
     log (reply_photo "https://images.example/1.png" "A red apple on a table")
       (log (call_image "sk-valid"
               (image_request (OpenAIHelper_init "sk-valid") (Some "Draw a red apple")))
          Sample.active)).
Proof.
  exact (draw_goes_to_image Sample.env (Sample.text_message "Draw a red apple")
           Sample.active (Sample.text_msg "Draw a red apple") "Draw a red apple" 42%Z
           Sample.the_manager eq_refl eq_refl eq_refl eq_refl eq_refl eq_refl).
Defined.

(** X10. A text that is not a reply, begins with "sk-" and has no "draw"
    in it, from a bound user who has a session already, the sends being
    delivered: the message is deleted and the user is greeted; the key is
    not validated and the stored session is not replaced. *)
Theorem key_with_session_is_not_tried env update w msg t u m n :
  Telegram.message update = Some msg ->
  Telegram.reply_to_message msg = None ->
  Telegram.text msg = Some t ->
  Py.startswith t "sk-" = true ->
  Py.contains "draw" (Py.lower t) = false ->
  user w = Some u ->
  user_name w = Some n ->
  user_data w !! u = Some m ->
  get_message env update w
  = (Ok tt,
     log (reply_markdown (welcome_back n))
       (log (message_delete (Telegram.message_id msg)) w)).
Proof.
  intros Hmsg Hreply Htext Hsk Hdraw Hu Hn Hm.
  unfold get_message, check_user, hello, welcome_back.
  run_monad.
  repeat (progress (rewrite ?Hmsg, ?Hreply, ?Htext, ?Hdraw, ?Hsk, ?Hu, ?Hm, ?Hn; simpl)).
  reflexivity.
Qed.

Lemma key_with_session_is_not_tried_witness :
  get_message Sample.env (Sample.text_message "sk-another") Sample.active
  = (Ok tt,
     log (reply_markdown (welcome_back "Alice")) (log (message_delete 7) Sample.active)).
Proof.
  apply (key_with_session_is_not_tried Sample.env (Sample.text_message "sk-another")
           Sample.active (Sample.text_msg "sk-another") "sk-another" 42%Z
           Sample.the_manager "Alice");
    vm_compute; reflexivity.
Defined.

(** ** No model request without a session *)

Lemma bind_raises {A B} (c : M A) (k : A -> M B) (w w' : World) (e : Exn) :
  c w = (Raise e, w') -> bind c k w = (Raise e, w').
Proof. intros H. unfold bind. now rewrite H. Qed.

#[local] Instance same_model_requests_refl : Reflexive same_model_requests.
Proof. intros w. reflexivity. Qed.

#[local] Instance same_model_requests_trans : Transitive same_model_requests.
Proof. intros a b c H1 H2. unfold same_model_requests in *. congruence. Qed.

Lemma calm_emit (e : Event) :
  is_model_request e = false -> preserves same_model_requests (emit e).
Proof.
  intros H. apply preserves_modify. intros w. unfold same_model_requests, model_requests.
  simpl. rewrite List.filter_app. simpl. rewrite H. apply app_nil_r.
Qed.

Lemma calm_modify (f : World -> World) :
  (forall w, trace (f w) = trace w) -> preserves same_model_requests (modify f).
Proof.
  intros H. apply preserves_modify. intros w. unfold same_model_requests. now rewrite H.
Qed.

Create HintDb calm discriminated.

Ltac calm :=
  repeat first
    [ solve [ auto with calm nocore ]
    | preserve_step
    | apply calm_emit; reflexivity
    | apply calm_modify; reflexivity
    | progress (simpl; intros) ].

Lemma no_session_lookup (w : World) (u : Z) :
  no_session w -> user w = Some u -> user_data w !! u = None.
Proof. unfold no_session. intros H Hu. now rewrite Hu in H. Qed.

(** Without a session the lookup [context.user_data[user]] raises and
    leaves the world alone. *)
Lemma user_data_get_no_session (w : World) :
  no_session w -> exists e, user_data_get w = (Raise e, w).
Proof.
  intros Hns. unfold user_data_get, bind, global, get_world.
  destruct (user w) as [u|] eqn:Hu.
  - rewrite (no_session_lookup w u Hns Hu). now exists (KeyError u).
  - now exists (NameError "user").
Qed.

Section ModelRequests.

Variable env : Env.

Lemma hello_calm update : preserves same_model_requests (hello update).
Proof. unfold hello. calm. Qed.

Lemma question_calm update : preserves same_model_requests (question update).
Proof. unfold question. calm. Qed.

#[local] Hint Resolve hello_calm question_calm : calm.

Lemma check_user_prompt_calm update :
  preserves same_model_requests (check_user_prompt update).
Proof. unfold check_user_prompt. calm. Qed.

Lemma OpenAIModelManager_init_calm api_key :
  preserves same_model_requests (OpenAIModelManager_init env api_key).
Proof. unfold OpenAIModelManager_init, _validate_api_key, check_api_key. calm. Qed.

#[local] Hint Resolve check_user_prompt_calm OpenAIModelManager_init_calm : calm.

(** Key entry validates and stores; it asks no model for anything. *)
Lemma check_user_calm update data :
  preserves same_model_requests (check_user env update data).
Proof. unfold check_user. calm. Qed.

#[local] Hint Resolve check_user_calm : calm.

Lemma start_calm update : preserves same_model_requests (start env update).
Proof. unfold start. calm. Qed.

#[local] Hint Resolve start_calm : calm.

Lemma error_message_calm update : preserves same_model_requests (error_message env update).
Proof. unfold error_message. calm. Qed.

Lemma button_calm update : preserves same_model_requests (button update).
Proof. unfold button. calm. Qed.

Lemma send_image_needs_session update w :
  no_session w -> same_model_requests w (snd (send_image env update w)).
Proof.
  intros Hns. unfold send_image.
  destruct (user_data_get_no_session w Hns) as [e He].
  rewrite (bind_raises _ _ _ _ _ He). reflexivity.
Qed.

Lemma get_message_needs_session update w :
  no_session w -> same_model_requests w (snd (get_message env update w)).
Proof.
  intros Hns. unfold get_message, message_of.
  destruct (user_data_get_no_session w Hns) as [e He].
  destruct (Telegram.message update) as [msg|]; simpl; [ | reflexivity ].
  rewrite bind_ret_l.
  destruct (Telegram.reply_to_message msg) as [replied|].
  { rewrite (bind_raises _ _ _ _ _ He). reflexivity. }
  destruct (Telegram.text msg) as [t|]; simpl; [ | reflexivity ].
  rewrite bind_ret_l.
  destruct (Py.contains "draw" (Py.lower t)); [ now apply send_image_needs_session | ].
  destruct (Py.startswith t "sk-").
  - unfold bind at 1. unfold emit, modify.
    transitivity (log (message_delete (Telegram.message_id msg)) w).
    + apply (calm_emit (message_delete (Telegram.message_id msg)) eq_refl w).
    + apply check_user_calm.
  - rewrite (bind_raises _ _ _ _ _ He). reflexivity.
Qed.

(** A plain computation of the requests in a trace that grew by events
    that are no model requests. *)
Ltac same_requests :=
  unfold same_model_requests, model_requests; simpl;
  rewrite ?List.filter_app; simpl; rewrite ?app_nil_r; reflexivity.

Lemma audio_needs_session update w :
  no_session w -> same_model_requests w (snd (audio env update w)).
Proof.
  intros Hns. unfold audio, download_audio_to_local, open_rb.
  run_monad.
  destruct (Telegram.message update) as [msg|]; simpl; [ | reflexivity ].
  destruct (Telegram.voice msg) as [v|]; simpl; [ | reflexivity ].
  destruct (bot_get_file env (Telegram.voice_file_id v)) as [file|]; simpl;
    [ | same_requests ].
  destruct (download_as_bytearray env file) as [bytes|]; simpl; [ | same_requests ].
  rewrite lookup_insert_eq. simpl.
  destruct (user w) as [u|] eqn:Hu; simpl; [ | same_requests ].
  rewrite (no_session_lookup w u Hns Hu). simpl. same_requests.
Qed.

Lemma handle_file_needs_session update w :
  no_session w -> same_model_requests w (snd (handle_file env update w)).
Proof.
  intros Hns. unfold handle_file.
  run_monad.
  destruct (Telegram.message update) as [msg|]; simpl; [ | reflexivity ].
  destruct (Telegram.document msg) as [doc|]; simpl; [ | reflexivity ].
  destruct (bot_get_file env (Telegram.file_id doc)) as [file|]; simpl; [ | same_requests ].
  destruct (decide (Telegram.mime_type doc = Some "text/plain")); simpl.
  { destruct (requests_get env (Telegram.file_path file)); simpl; [ | same_requests ].
    destruct (user w) as [u|] eqn:Hu; simpl; [ | same_requests ].
    rewrite (no_session_lookup w u Hns Hu). simpl. same_requests. }
  destruct (decide (Telegram.mime_type doc = Some "application/pdf")); simpl;
    [ | same_requests ].
  destruct (user w) as [u|] eqn:Hu; simpl; [ | same_requests ].
  rewrite (no_session_lookup w u Hns Hu). simpl. same_requests.
Qed.

End ModelRequests.

(** X11. While the current user has no stored session, one update through
    the dispatch makes no request to the chat, transcription, image or
    embedding model, whatever the update is and however the framework
    matches it to a handler: every such request is made through the
    session. *)
Theorem no_model_request_without_session env fw update w :
  no_session w ->
  model_requests (trace (process_update env fw update w)) = model_requests (trace w).
Proof.
  intros Hns. unfold process_update, error_handler.
  destruct (dispatch (configure_handlers env fw) update) as [callback|] eqn:Hd;
    [ | reflexivity ].
  assert (Hcb : same_model_requests w (snd (callback update w))).
  { apply dispatch_configure_handlers in Hd.
    destruct Hd as [-> | [-> | [-> | [-> | ->]]]].
    - apply button_calm.
    - apply start_calm.
    - now apply audio_needs_session.
    - now apply handle_file_needs_session.
    - now apply get_message_needs_session. }
  destruct (callback update w) as [[[]|e] w1]; simpl in Hcb; [ exact Hcb | ].
  change (same_model_requests w (snd (error_message env update w1))).
  transitivity w1; [ exact Hcb | apply error_message_calm ].
Qed.

Lemma no_model_request_without_session_witness :
  model_requests
    (trace (process_update Sample.env Ptb.framework (Sample.text_message "draw me a cat")
              Sample.awaiting_key))
  = model_requests (trace Sample.awaiting_key).
Proof.
  apply (no_model_request_without_session Sample.env Ptb.framework
           (Sample.text_message "draw me a cat") Sample.awaiting_key).
  vm_compute. reflexivity.
Defined.

(** ** Every stored session was validated *)

(** Relations between worlds that hold whenever the session map is the
    same: the handlers other than [check_user] respect all of them. *)
Section SessionRelations.

Context (R : World -> World -> Prop) `{!Reflexive R} `{!Transitive R}.
Hypothesis R_same_data : forall w w', user_data w' = user_data w -> R w w'.

Variable env : Env.
Hypothesis R_check_user : forall update data, preserves R (check_user env update data).

Lemma data_emit (e : Event) : preserves R (emit e).
Proof. apply preserves_modify. intros w. now apply R_same_data. Qed.

Lemma data_modify (f : World -> World) :
  (forall w, user_data (f w) = user_data w) -> preserves R (modify f).
Proof. intros H. apply preserves_modify. intros w. now apply R_same_data. Qed.

Create HintDb data discriminated.

Ltac data :=
  repeat first
    [ solve [ auto with data nocore ]
    | preserve_step
    | apply data_emit
    | apply data_modify; reflexivity
    | progress (simpl; intros) ].

Lemma chat_message_data self prompt : preserves R (chat_message env self prompt).
Proof. unfold chat_message. data. Qed.

Lemma transcribe_voice_data self bytes : preserves R (transcribe_voice env self bytes).
Proof. unfold transcribe_voice. data. Qed.

Lemma create_image_data self prompt : preserves R (create_image env self prompt).
Proof. unfold create_image. data. Qed.

Lemma user_data_get_data : preserves R user_data_get.
Proof. unfold user_data_get. data. Qed.

#[local] Hint Resolve chat_message_data transcribe_voice_data create_image_data
  user_data_get_data R_check_user : data.

Lemma retrieve_and_answer_data self docs prompt :
  preserves R (retrieve_and_answer env self docs prompt).
Proof. unfold retrieve_and_answer. data. Qed.

#[local] Hint Resolve retrieve_and_answer_data : data.

Lemma rag_with_documents_data self filepath prompt :
  preserves R (rag_with_documents env self filepath prompt).
Proof. unfold rag_with_documents. data. Qed.

Lemma rag_with_documents_from_text_data self text_content prompt :
  preserves R (rag_with_documents_from_text env self text_content prompt).
Proof. unfold rag_with_documents_from_text. data. Qed.

#[local] Hint Resolve rag_with_documents_data rag_with_documents_from_text_data : data.

Lemma start_data update : preserves R (start env update).
Proof. unfold start. data. Qed.

#[local] Hint Resolve start_data : data.

Lemma error_message_data update : preserves R (error_message env update).
Proof. unfold error_message. data. Qed.

Lemma handle_file_data update : preserves R (handle_file env update).
Proof. unfold handle_file. data. Qed.

Lemma send_image_data update : preserves R (send_image env update).
Proof. unfold send_image. data. Qed.

Lemma download_audio_to_local_data file : preserves R (download_audio_to_local env file).
Proof. unfold download_audio_to_local. data. Qed.

Lemma open_rb_data path : preserves R (open_rb path).
Proof. unfold open_rb. data. Qed.

Lemma os_remove_data path : preserves R (os_remove path).
Proof. unfold os_remove. data. Qed.

#[local] Hint Resolve send_image_data download_audio_to_local_data open_rb_data
  os_remove_data : data.

Lemma audio_data update : preserves R (audio env update).
Proof. unfold audio. data. Qed.

Lemma button_data update : preserves R (button update).
Proof. unfold button. data. Qed.

Lemma get_message_data update : preserves R (get_message env update).
Proof. unfold get_message. data. Qed.

(** One update through the dispatch respects the relation. *)
Lemma process_update_data fw update w : R w (process_update env fw update w).
Proof.
  unfold process_update, error_handler.
  destruct (dispatch (configure_handlers env fw) update) as [callback|] eqn:Hd;
    [ | reflexivity ].
  assert (Hcb : preserves R (callback update)).
  { apply dispatch_configure_handlers in Hd.
    destruct Hd as [-> | [-> | [-> | [-> | ->]]]];
      auto using button_data, start_data, audio_data, handle_file_data, get_message_data. }
  specialize (Hcb w).
  destruct (callback update w) as [[[]|e] w1]; simpl in Hcb; [ exact Hcb | ].
  transitivity w1; [ exact Hcb | apply error_message_data ].
Qed.

End SessionRelations.

#[local] Instance admits_refl env : Reflexive (admits env).
Proof. intros w u m H. now left. Qed.

#[local] Instance admits_trans env : Transitive (admits env).
Proof.
  intros a b c H1 H2 u m H.
  destruct (H2 u m H) as [Hb | Hv]; [ now apply H1 | now right ].
Qed.

Lemma admits_same_data env w w' : user_data w' = user_data w -> admits env w w'.
Proof. intros H u m Hm. left. now rewrite <- H. Qed.

Lemma new_manager_validated env d : models_list env d = Ok tt -> validated env (new_manager d).
Proof. intros H. split; [ reflexivity | exact H ]. Qed.

(** The one write to the session map stores what the constructor
    returned, and the constructor returns only after validation. *)
Lemma check_user_admits env update data :
  preserves (admits env) (check_user env update data).
Proof.
  intros w. unfold check_user.
  unfold bind at 1. unfold global at 1.
  destruct (user w) as [u|] eqn:Hu; [ | reflexivity ].
  unfold bind at 1. unfold get_world at 1.
  destruct (user_data w !! u) as [m|] eqn:Hm.
  { apply admits_same_data. unfold hello. run_monad.
    destruct (Telegram.message update); simpl; [ destruct (user_name w) | ]; reflexivity. }
  assert (Hprompt : admits env w (snd (check_user_prompt update w))).
  { apply admits_same_data. unfold check_user_prompt, question. run_monad.
    destruct (Telegram.message update); reflexivity. }
  destruct data as [d|]; [ | exact Hprompt ].
  destruct (String.eqb d EmptyString); [ exact Hprompt | ].
  unfold OpenAIModelManager_init, _validate_api_key, check_api_key, hello, message_of.
  unfold bind, emit, modify, lift, attr, global, ret, raise. simpl.
  destruct (models_list env d) as [[]|e] eqn:Hok; simpl;
    [ | now apply admits_same_data ].
  destruct (Telegram.message update); simpl; [ | now apply admits_same_data ].
  destruct (user_name w); simpl; [ | now apply admits_same_data ].
  rewrite Hu. simpl.
  intros u0 m0. simpl. rewrite lookup_insert.
  destruct (decide (u = u0)) as [->|Hne]; intros H0.
  - right. injection H0 as <-. now apply new_manager_validated.
  - now left.
Qed.

(** X12. If every stored session holds a manager that the constructor
    built from a key that passes validation, the same is true after any
    update went through the dispatch: nothing but a validated manager is
    ever written to the session map. *)
Theorem sessions_stay_validated env fw update w :
  sessions_validated env w ->
  sessions_validated env (process_update env fw update w).
Proof.
  intros Hw u m Hm.
  destruct (process_update_data (admits env) (admits_same_data env) env
              (check_user_admits env) fw update w u m Hm) as [Hold | Hnew].
  - now apply (Hw u).
  - exact Hnew.
Qed.

(** The update is the one that writes: Bob, bound and without a session,
    enters a key while Alice's session is stored. *)
Lemma sessions_stay_validated_witness :
  sessions_validated Sample.env
    (process_update Sample.env Ptb.framework (Sample.text_message "sk-valid") Outage.newcomer) /\
  user_data
    (process_update Sample.env Ptb.framework (Sample.text_message "sk-valid") Outage.newcomer)
  = {[ 42%Z := Sample.the_manager; 43%Z := new_manager "sk-valid" ]}.
Proof.
  split; [ | vm_compute; reflexivity ].
  apply (sessions_stay_validated Sample.env Ptb.framework (Sample.text_message "sk-valid")
           Outage.newcomer).
  intros u m H. unfold Outage.newcomer in H. simpl in H.
  apply lookup_singleton_Some in H as [<- <-].
  split; reflexivity.
Defined.

(** ** Voice messages *)



(** X14. A voice message of a user who is bound but has no session: the
    audio is downloaded and written to disk before the session is looked
    up, so the handler raises [KeyError] with the file left on disk and
    nothing transcribed or sent. *)
Theorem voice_without_session_leaves_file env update w msg v file bytes u :
  Telegram.message update = Some msg ->
  Telegram.voice msg = Some v ->
  bot_get_file env (Telegram.voice_file_id v) = Ok file ->
  download_as_bytearray env file = Ok bytes ->
  user w = Some u ->
  user_data w !! u = None ->
  audio env update w
  = (Raise (KeyError u),
     set_fs (<[temporary_name env (fs w) ".ogg" := bytes]> (fs w))
       (log (call_download file) (log (call_get_file (Telegram.voice_file_id v)) w))).
Proof.
  intros Hmsg Hv Hfile Hdl Hu Hnone.
  unfold audio, download_audio_to_local, open_rb.
  run_monad.
  repeat (progress (rewrite ?Hmsg, ?Hv, ?Hfile, ?Hdl, ?Hu, ?Hnone, ?lookup_insert_eq; simpl)).
  reflexivity.
Qed.

Lemma voice_without_session_leaves_file_witness :
  audio Sample.env Sample.voice_message Sample.awaiting_key
  = (Raise (KeyError 42),
     set_fs (<["/tmp/tmpk3v9.ogg" := Sample.voice_bytes]> (fs Sample.awaiting_key))
       (log (call_download (Sample.file_of "voice-1"))
          (log (call_get_file "voice-1") Sample.awaiting_key))).
Proof.
  apply (voice_without_session_leaves_file Sample.env Sample.voice_message
           Sample.awaiting_key Sample.voice_msg Sample.the_voice (Sample.file_of "voice-1")
           Sample.voice_bytes 42%Z);
    vm_compute; reflexivity.
Defined.

(** X15. [download_audio_to_local]: when the download succeeds, the
    returned path reads back the downloaded bytes and no other path is
    touched; when it raises, nothing is written. *)
Theorem download_audio_to_local_writes_one_file env file w :
  match download_as_bytearray env file with
  | Ok bytes =>
      let path := temporary_name env (fs w) ".ogg" in
      let w' := snd (download_audio_to_local env file w) in
      fst (download_audio_to_local env file w) = Ok path /\
      open_rb path w' = (Ok bytes, w') /\
      (forall other, other <> path -> fs w' !! other = fs w !! other)
  | Raise e =>
      download_audio_to_local env file w = (Raise e, log (call_download file) w)
  end.
Proof.
  unfold download_audio_to_local, open_rb. run_monad.
  destruct (download_as_bytearray env file) as [bytes|e]; simpl; [ | reflexivity ].
  split; [ reflexivity | ]. split.
  - now rewrite lookup_insert_eq.
  - intros other Hne. now apply lookup_insert_ne.
Qed.

(** ** Documents and retrieval *)

(** X16. A PDF the loader cannot read, sent by a user with a session:
    [handle_file] raises the loader's exception after the file lookup and
    the load attempt, with no retrieval, no chat request and no reply; the
    error handler then sends the fixed error text. *)
Theorem unreadable_pdf_is_reported env update w msg doc file u m e :
  Telegram.message update = Some msg ->
  Telegram.document msg = Some doc ->
  Telegram.mime_type doc = Some "application/pdf" ->
  bot_get_file env (Telegram.file_id doc) = Ok file ->
  user w = Some u ->
  user_data w !! u = Some m ->
  pdf_load env (Telegram.file_path file) = Raise e ->
  let w1 := log (call_pdf_load (Telegram.file_path file))
              (log (call_get_file (Telegram.file_id doc)) w) in
  handle_file env update w = (Raise e, w1) /\
  error_message env update w1
  = (Ok tt, log (reply_text "An error occurred please try again later") w1).
Proof.
  intros Hmsg Hdoc Hmime Hfile Hu Hm Hload w1. subst w1.
  split.
  - unfold handle_file, rag_with_documents. run_monad.
    repeat (progress (rewrite ?Hmsg, ?Hdoc, ?Hfile, ?Hmime, ?Hu, ?Hm, ?Hload; simpl)).
    reflexivity.
  - now apply (error_message_with_session env update _ msg u m).
Qed.

Lemma unreadable_pdf_is_reported_witness :
  handle_file Outage.pdf_unreadable
    (Sample.document_message (Some "application/pdf") (Some "What is this about?"))
    Sample.active
  = (Raise (ServiceError "PdfReadError"),
     log (call_pdf_load "https://files.example/doc-1")
       (log (call_get_file "doc-1") Sample.active)) /\
  error_message Outage.pdf_unreadable
    (Sample.document_message (Some "application/pdf") (Some "What is this about?"))
    (log (call_pdf_load "https://files.example/doc-1")
       (log (call_get_file "doc-1") Sample.active))
  = (Ok tt,
     log (reply_text "An error occurred please try again later")
       (log (call_pdf_load "https://files.example/doc-1")
          (log (call_get_file "doc-1") Sample.active))).
Proof.
  apply (unreadable_pdf_is_reported Outage.pdf_unreadable
           (Sample.document_message (Some "application/pdf") (Some "What is this about?"))
           Sample.active
           (Sample.document_msg (Some "application/pdf") (Some "What is this about?"))
           (Sample.the_document (Some "application/pdf"))
           (Sample.file_of "doc-1") 42%Z Sample.the_manager (ServiceError "PdfReadError"));
    vm_compute; reflexivity.
Defined.

(** X17. When retrieval raises (the embedding or the index fails, or
    there is nothing to index), both retrieval methods raise with it and
    the chat model is not asked anything. *)
Theorem retrieval_failure_skips_chat env self question w e :
  (forall text_content,
     get_relevant_documents env (embed_model self)
       (split_documents env 1000 0 [ {| page_content := text_content |} ]) question
     = Raise e ->
     rag_with_documents_from_text env self text_content question w
     = (Raise e,
        log (call_retrieve (embed_model self)
               (split_documents env 1000 0 [ {| page_content := text_content |} ]) question)
          w)) /\
  (forall filepath raw_documents,
     pdf_load env filepath = Ok raw_documents ->
     get_relevant_documents env (embed_model self)
       (split_documents env 1000 0 raw_documents) question = Raise e ->
     rag_with_documents env self filepath question w
     = (Raise e,
        log (call_retrieve (embed_model self)
               (split_documents env 1000 0 raw_documents) question)
          (log (call_pdf_load filepath) w))).
Proof.
  split.
  - intros text_content Hfail.
    unfold rag_with_documents_from_text, retrieve_and_answer.
    unfold bind, emit, modify, lift. simpl. now rewrite Hfail.
  - intros filepath raw Hload Hfail.
    unfold rag_with_documents, retrieve_and_answer.
    unfold bind, emit, modify, lift. simpl. rewrite Hload. simpl. now rewrite Hfail.
Qed.

Lemma retrieval_failure_skips_chat_witness :
  rag_with_documents_from_text Outage.retrieval_down (lang_model Sample.the_manager)
    "some text" "What is this about?" Sample.active
  = (Raise (ServiceError "RateLimitError"),
     log (call_retrieve {| embeddings_api_key := "sk-valid" |}
            [ {| page_content := "some text" |} ] "What is this about?")
       Sample.active).
Proof.
  apply (proj1 (retrieval_failure_skips_chat Outage.retrieval_down
                  (lang_model Sample.the_manager) "What is this about?" Sample.active
                  (ServiceError "RateLimitError")) "some text").
  reflexivity.
Defined.



(** ** The masked key *)

Lemma append_cons (c : ascii) (a b : string) : String c a +:+ b = String c (a +:+ b).
Proof. reflexivity. Qed.

Lemma len_append (a b : string) : Py.len (a +:+ b) = Py.len a + Py.len b.
Proof.
  induction a as [|c a IH]; [ reflexivity | ].
  rewrite append_cons. simpl. destruct (Py.is_continuation c); simpl; now rewrite IH.
Qed.

(** A slice longer than the text is the text. *)
Lemma take_points_all (n : nat) (s : string) : Py.len s <= n -> Py.take_points n s = s.
Proof.
  revert n. induction s as [|c s IH]; intros n Hlen; [ reflexivity | ].
  simpl in *. destruct (Py.is_continuation c).
  - now rewrite IH.
  - destruct n as [|n]; [ lia | ]. rewrite IH; [ reflexivity | lia ].
Qed.

Lemma take_points_prefix (a r : string) :
  Py.starts_clean r = true -> Py.take_points (Py.len a) (a +:+ r) = a.
Proof.
  intros Hr. induction a as [|c a IH].
  - simpl. destruct r as [|c r]; [ reflexivity | ].
    simpl in *. now destruct (Py.is_continuation c).
  - rewrite append_cons. simpl. destruct (Py.is_continuation c); now rewrite IH.
Qed.

Lemma drop_points_suffix (x b : string) :
  Py.starts_clean b = true -> Py.drop_points (Py.len x) (x +:+ b) = b.
Proof.
  intros Hb. induction x as [|c x IH].
  - simpl. destruct b as [|c b]; [ reflexivity | ].
    simpl in *. now destruct (Py.is_continuation c).
  - rewrite append_cons. simpl. destruct (Py.is_continuation c); exact IH.
Qed.

Lemma starts_clean_append (a b : string) :
  Py.starts_clean a = true -> Py.starts_clean b = true -> Py.starts_clean (a +:+ b) = true.
Proof. intros Ha Hb. destruct a; [ exact Hb | exact Ha ]. Qed.

(** X19. The success echo shows the first three and the last three
    characters (code points) of the key and thirteen stars between them:
    what lies between the ends of a key never appears, and a key of at most
    three characters appears whole on both sides of the stars. The parts
    of the key are encoded texts: each begins with the first byte of a
    character. *)
Theorem key_echo_shows_the_ends (a mid b d : string) :
  (Py.len a = 3 -> Py.len b = 3 ->
   Py.starts_clean mid = true -> Py.starts_clean b = true ->
   key_echo (a +:+ mid +:+ b) = "Key : " +:+ a +:+ "*************" +:+ b +:+ " success") /\
  (Py.len d <= 3 -> Py.starts_clean d = true ->
   key_echo d = "Key : " +:+ d +:+ "*************" +:+ d +:+ " success").
Proof.
  unfold key_echo, Py.slice_to, Py.slice_last. split.
  - intros Ha Hb Hmid Hbc.
    rewrite <- Ha at 1.
    rewrite (take_points_prefix a (mid +:+ b) (starts_clean_append mid b Hmid Hbc)).
    rewrite <- (append_assoc a mid b).
    rewrite (len_append (a +:+ mid) b), Hb, Nat.add_sub.
    now rewrite (drop_points_suffix (a +:+ mid) b Hbc).
  - intros Hd Hclean.
    replace (Py.len d - 3) with 0 by lia.
    rewrite (take_points_all 3 d Hd).
    assert (H0 : Py.drop_points 0 d = d) by exact (drop_points_suffix EmptyString d Hclean).
    now rewrite H0.
Qed.

Lemma key_echo_shows_the_ends_witness :
  key_echo ("sk-" +:+ "proj-SECRET-PART" +:+ "日本語") = "Key : sk-*************日本語 success" /\
  key_echo "sk-" = "Key : sk-*************sk- success".
Proof.
  split.
  - exact (proj1 (key_echo_shows_the_ends "sk-" "proj-SECRET-PART" "日本語" "sk-")
             eq_refl eq_refl eq_refl eq_refl).
  - apply (proj2 (key_echo_shows_the_ends "sk-" "proj-SECRET-PART" "日本語" "sk-"));
      [ vm_compute; lia | reflexivity ].
Defined.

(** ** Updates no handler takes *)

(** X20. A message the command filter accepts is never handed to
    [get_message]: unless it is the start command (or a callback query, a
    voice or a document), the dispatch drops it, which sends nothing,
    changes nothing and does not call the error handler. *)
Theorem other_commands_are_dropped env fw update w :
  filters_COMMAND fw update = true ->
  CallbackQueryHandler fw update = false ->
  CommandHandler fw "start" update = false ->
  filters_VOICE fw update = false ->
  filters_Document_ALL fw update = false ->
  process_update env fw update w = w.
Proof.
  intros Hcmd Hcb Hstart Hvoice Hdoc.
  unfold process_update, configure_handlers. simpl.
  now rewrite Hcb, Hstart, Hvoice, Hdoc, Hcmd, Bool.andb_false_r.
Qed.

Lemma other_commands_are_dropped_witness :
  process_update Sample.env Ptb.framework (Sample.text_message "/help") Sample.active
  = Sample.active.
Proof.
  apply (other_commands_are_dropped Sample.env Ptb.framework
           (Sample.text_message "/help") Sample.active);
    reflexivity.
Defined.

(** * Key entry, documents and replies in every state *)

(** ** Key entry over a transport that can refuse a send *)

(** With every send delivered, the code over a transport is the code
    above. *)
Lemma check_user_via_delivered env update data w :
  check_user_via delivered env update data w = check_user env update data w.
Proof. reflexivity. Qed.




(** ** Documents whose file lookup fails *)

(** C4, counterexample. The file lookup comes before the test of the
    declared type. When it raises, a document of an unsupported type from a
    user with a session gets no rejection text: the handler raises and the
    error handler sends the error text. *)
Lemma handle_file_dispatch_counterexample :
  handle_file Outage.lookup_down
    (Sample.document_message (Some "application/msword") None) Sample.active
  = (Raise (ServiceError "BadRequest: File is too big"),
     log (call_get_file "doc-1") Sample.active) /\
  trace (process_update Outage.lookup_down Ptb.framework
           (Sample.document_message (Some "application/msword") None) Sample.active)
  = [ call_get_file "doc-1"; reply_text "An error occurred please try again later" ] /\
  ~ unsupported_type_as_stated.
Proof.
  split; [ vm_compute; reflexivity | ].
  split; [ vm_compute; reflexivity | ].
  intros H.
  specialize (H Outage.lookup_down
                (Sample.document_message (Some "application/msword") None) Sample.active
                (Sample.document_msg (Some "application/msword") None)
                (Sample.the_document (Some "application/msword")) 42%Z Sample.the_manager
                eq_refl eq_refl eq_refl eq_refl ltac:(discriminate) ltac:(discriminate)).
  vm_compute in H. destruct H as [H | []]. discriminate H.
Qed.

(** ** Replies in every state *)




(** ** Keys with the letters of "draw" in them *)

(** C2. The claim: every text that begins with "sk-" is taken as a key,
    deleted and validated. The code tests for "draw" before it tests the
    prefix: a key that is not a reply and has those letters in it, in any
    letter case, never reaches the key entry. For a bound user without a
    session the handler raises at the session lookup of the image branch
    with the world untouched; with a session the key goes to the image
    model as a prompt. In both cases the message is not deleted and no
    validation is attempted. *)
Theorem key_with_draw_skips_key_entry env update w msg t u :
  Telegram.message update = Some msg ->
  Telegram.reply_to_message msg = None ->
  Telegram.text msg = Some t ->
  Py.startswith t "sk-" = true ->
  Py.contains "draw" (Py.lower t) = true ->
  user w = Some u ->
  get_message env update w
  = match user_data w !! u with
    | None => (Raise (KeyError u), w)
    | Some m =>
        let w1 := log (call_image (openai_client (model m))
                         (image_request (model m) (Some t))) w in
        match images_generate env (openai_client (model m))
                (image_request (model m) (Some t)) with
        | Ok (image, revised_prompt) => (Ok tt, log (reply_photo image revised_prompt) w1)
        | Raise e => (Raise e, w1)
        end
    end.
Proof.
  intros Hmsg Hreply Htext Hsk Hdraw Hu.
  unfold get_message, message_of. rewrite Hmsg. simpl. rewrite bind_ret_l, Hreply, Htext.
  simpl. rewrite bind_ret_l, Hdraw.
  unfold send_image, message_of.
  destruct (user_data w !! u) as [m|] eqn:Hm.
  - unfold bind at 1. rewrite (user_data_get_run w u m Hu Hm).
    rewrite Hmsg. simpl. rewrite bind_ret_l, Htext.
    unfold create_image, image_request, bind, emit, modify, lift. simpl.
    match goal with
    | |- context [images_generate ?a ?b ?c] =>
        destruct (images_generate a b c) as [[image revised]|e']
    end; reflexivity.
  - unfold user_data_get, bind, global, get_world. now rewrite Hu, Hm.
Qed.

Lemma key_with_draw_skips_key_entry_witness :
  get_message Sample.env (Sample.text_message "sk-proj-9dRaWx2") Sample.awaiting_key
  = (Raise (KeyError 42), Sample.awaiting_key).
Proof.
  exact (key_with_draw_skips_key_entry Sample.env (Sample.text_message "sk-proj-9dRaWx2")
           Sample.awaiting_key (Sample.text_msg "sk-proj-9dRaWx2") "sk-proj-9dRaWx2" 42%Z
           eq_refl eq_refl eq_refl eq_refl eq_refl eq_refl).
Defined.

(** ** The deletion of a key *)

#[local] Instance trace_grows_refl : Reflexive trace_grows.
Proof. intros w. exists []. now rewrite app_nil_r. Qed.

#[local] Instance trace_grows_trans : Transitive trace_grows.
Proof.
  intros a b c [r1 H1] [r2 H2]. exists (r1 ++ r2). now rewrite H2, H1, app_assoc.
Qed.

Lemma grows_emit (e : Event) : preserves trace_grows (emit e).
Proof. apply preserves_modify. intros w. now exists [e]. Qed.

Lemma grows_modify (f : World -> World) :
  (forall w, trace (f w) = trace w) -> preserves trace_grows (modify f).
Proof.
  intros H. apply preserves_modify. intros w. exists []. now rewrite H, app_nil_r.
Qed.

Ltac grows :=
  repeat first
    [ preserve_step
    | apply grows_emit
    | apply grows_modify; reflexivity
    | progress (simpl; intros) ].

Lemma check_user_grows env update data :
  preserves trace_grows (check_user env update data).
Proof.
  unfold check_user, check_user_prompt, question, hello, OpenAIModelManager_init,
    _validate_api_key, check_api_key.
  grows.
Qed.

(** A key that reaches the key entry is deleted from the chat before
    anything else happens, in every state. *)
Lemma key_is_deleted_first env update w msg t :
  Telegram.message update = Some msg ->
  Telegram.reply_to_message msg = None ->
  Telegram.text msg = Some t ->
  Py.startswith t "sk-" = true ->
  Py.contains "draw" (Py.lower t) = false ->
  exists rest,
    trace (snd (get_message env update w))
    = trace w ++ message_delete (Telegram.message_id msg) :: rest.
Proof.
  intros Hmsg Hreply Htext Hsk Hdraw.
  unfold get_message, message_of. rewrite Hmsg. simpl. rewrite bind_ret_l, Hreply, Htext.
  simpl. rewrite bind_ret_l, Hdraw, Hsk.
  unfold bind at 1. unfold emit, modify.
  destruct (check_user_grows env update (Some t)
              (log (message_delete (Telegram.message_id msg)) w)) as [rest Hrest].
  exists rest. rewrite Hrest. simpl. now rewrite <- app_assoc.
Qed.

(** ** [off] without a session *)

(** X2. [off], when the current user has no stored session, changes
    nothing and sends nothing: it returns for a bound user and raises
    [NameError] when no user is bound. *)
Theorem off_without_session_is_silent update w :
  no_session w ->
  off update w
  = (match user w with
     | Some _ => Ok tt
     | None => Raise (NameError "user")
     end, w).
Proof.
  unfold no_session, off. intros Hns. run_monad.
  destruct (user w) as [u|]; simpl; [ | reflexivity ].
  now rewrite Hns.
Qed.

Lemma off_without_session_is_silent_witness :
  off (Sample.text_message "/off") Sample.awaiting_key = (Ok tt, Sample.awaiting_key) /\
  off (Sample.text_message "/off") Sample.fresh = (Raise (NameError "user"), Sample.fresh).
Proof.
  split.
  - apply (off_without_session_is_silent (Sample.text_message "/off") Sample.awaiting_key).
    vm_compute. reflexivity.
  - apply (off_without_session_is_silent (Sample.text_message "/off") Sample.fresh).
    vm_compute. exact I.
Defined.
